(** * Post Dominator: the OAuth connection life cycle

    A shallow embedding of the TypeScript of OAUTH_IMPLEMENTATION_GUIDE.md:
    token encryption (encryptToken / decryptToken), the connection table
    (saveConnection / getConnections), the token exchange
    (exchangeCodeForTokens), the two route handlers (initiation and callback)
    and the refresh check (refreshTokenIfNeeded).

    Conventions of the model
    - a JS string is a [string] holding the UTF-8 bytes of its text, so that
      Node's utf8 encoding of a string into a Buffer is [list_byte_of_string];
    - a Buffer is a [list byte];
    - [null] and [undefined] are [None];
    - a Date is its [getTime()] value, a [Z] of milliseconds;
    - a thrown exception or a rejected promise is [Throw], and effects that
      happened before the throw stay in the world. *)

From Stdlib Require Import ZArith NArith List String Ascii Strings.Byte Bool Lia.
From stdpp Require Import gmap strings.
Import ListNotations.

Local Open Scope string_scope.
Local Open Scope list_scope.
Local Open Scope Z_scope.

(** ** Exceptions and results *)

Inductive Exn : Type :=
| TypeError (msg : string)      (* a property read on undefined *)
| ReferenceError (msg : string) (* a name read that nothing binds *)
| Error (msg : string)          (* new Error(msg) *)
| CryptoError (msg : string)    (* thrown by node:crypto *)
| DbError (msg : string)        (* thrown by the database driver *)
| Rejected (msg : string).      (* a collaborator's promise was rejected *)

Inductive result (A : Type) : Type :=
| Ok (a : A)
| Throw (e : Exn).
Arguments Ok {A} a.
Arguments Throw {A} e.

#[global] Instance result_ret : MRet result := @Ok.

#[global] Instance result_bind : MBind result := fun A B k r =>
  match r with
  | Ok a => k a
  | Throw e => Throw e
  end.

#[global] Instance result_fmap : FMap result := fun A B f r =>
  match r with
  | Ok a => Ok (f a)
  | Throw e => Throw e
  end.

(** ** JS truthiness of the optional values the code tests *)

Definition truthy_str (o : option string) : bool :=
  match o with
  | Some s => negb (String.eqb s EmptyString)
  | None => false
  end.

Definition truthy_num (o : option Z) : bool :=
  match o with
  | Some n => negb (n =? 0)
  | None => false
  end.

(** ** Buffers and their hex encoding *)

Module Buffer.

Definition t := list byte.

Definition hex_digit (n : N) : ascii :=
  if (n <? 10)%N then ascii_of_N (48 + n) else ascii_of_N (87 + n).

(* the value of a hex digit; Node accepts both cases when it decodes *)
Definition hex_val (c : ascii) : option N :=
  let n := N_of_ascii c in
  if ((48 <=? n) && (n <=? 57))%N then Some (n - 48)%N
  else if ((97 <=? n) && (n <=? 102))%N then Some (n - 87)%N
  else if ((65 <=? n) && (n <=? 70))%N then Some (n - 55)%N
  else None.

Definition byte_to_hex (b : byte) : string :=
  String (hex_digit (Byte.to_N b / 16)) (String (hex_digit (Byte.to_N b mod 16)) EmptyString).

(* buf.toString('hex') *)
Fixpoint toString_hex (buf : t) : string :=
  match buf with
  | [] => EmptyString
  | b :: rest => byte_to_hex b +:+ toString_hex rest
  end.

Definition byte_of_nibbles (hi lo : N) : byte :=
  match Byte.of_N (16 * hi + lo) with
  | Some b => b
  | None => x00
  end.

(* Buffer.from(s, 'hex'): pairs of hex digits, cut at the first pair that is
   not one; a trailing single character is dropped *)
Fixpoint from_hex (s : string) : t :=
  match s with
  | String a (String b rest) =>
      match hex_val a, hex_val b with
      | Some hi, Some lo => byte_of_nibbles hi lo :: from_hex rest
      | _, _ => []
      end
  | _ => []
  end.

(* Buffer.from(s) of a string, and buf.toString() back *)
Definition from_utf8 (s : string) : t := list_byte_of_string s.
Definition toString (buf : t) : string := string_of_list_byte buf.

End Buffer.

(** ** String.prototype.split and Array.prototype.join on one separator *)

Fixpoint split (sep : ascii) (s : string) : list string :=
  match s with
  | EmptyString => [EmptyString]
  | String c rest =>
      if Ascii.eqb c sep then EmptyString :: split sep rest
      else match split sep rest with
           | h :: t => String c h :: t
           | [] => [String c EmptyString]
           end
  end.

Fixpoint join (sep : ascii) (parts : list string) : string :=
  match parts with
  | [] => EmptyString
  | [p] => p
  | p :: rest => p +:+ String sep (join sep rest)
  end.

(** ** AES-256-CBC, the primitive of node:crypto

    The block cipher is the library's; the code only feeds it a key, an IV
    and a buffer.  [cbc_encrypt key iv m] is [cipher.update(m)] followed by
    [cipher.final()]; [cbc_decrypt] is the same on a decipher, whose
    [final()] throws on a bad padding ([None]). *)

Class Cipher : Type := {
  cbc_encrypt : Buffer.t -> Buffer.t -> Buffer.t -> Buffer.t;
  cbc_decrypt : Buffer.t -> Buffer.t -> Buffer.t -> option Buffer.t
}.

(* what the library guarantees for a 32-byte key and a 16-byte IV *)
Definition CipherCorrect (C : Cipher) : Prop :=
  forall key iv m,
    length key = 32%nat -> length iv = 16%nat ->
    cbc_decrypt key iv (cbc_encrypt key iv m) = Some m.

(* A stand-in cipher used to run the model on concrete inputs: it reverses
   the buffer and appends the first IV byte as a one-byte trailer. *)
Definition toy_encrypt (key iv m : Buffer.t) : Buffer.t :=
  rev m ++ [hd x00 iv].

Definition toy_decrypt (key iv ct : Buffer.t) : option Buffer.t :=
  match rev ct with
  | b :: m => if Byte.eqb b (hd x00 iv) then Some m else None
  | [] => None
  end.

Definition toy_cipher : Cipher :=
  {| cbc_encrypt := toy_encrypt; cbc_decrypt := toy_decrypt |}.

Section Encryption.

Context {C : Cipher}.
(* process.env.ENCRYPTION_KEY, a hex string *)
Variable ENCRYPTION_KEY : string.

Definition IV_LENGTH : nat := 16.

(* crypto.createCipheriv('aes-256-cbc', key, iv) checks both lengths, the
   IV's before the key's *)
Definition createCipheriv (key iv : Buffer.t) : result (Buffer.t -> Buffer.t) :=
  if negb (length iv =? 16)%nat then Throw (CryptoError "Invalid initialization vector")
  else if negb (length key =? 32)%nat then Throw (CryptoError "Invalid key length")
  else Ok (cbc_encrypt key iv).

Definition createDecipheriv (key iv : Buffer.t) : result (Buffer.t -> result Buffer.t) :=
  if negb (length iv =? 16)%nat then Throw (CryptoError "Invalid initialization vector")
  else if negb (length key =? 32)%nat then Throw (CryptoError "Invalid key length")
  else Ok (fun ct => match cbc_decrypt key iv ct with
                     | Some m => Ok m
                     | None => Throw (CryptoError "bad decrypt")
                     end).

(* [iv] is the value of crypto.randomBytes(IV_LENGTH) *)
Definition encryptToken (iv : Buffer.t) (token : string) : result string :=
  cipher ← createCipheriv (Buffer.from_hex ENCRYPTION_KEY) iv;
  let encrypted := cipher (Buffer.from_utf8 token) in
  Ok (Buffer.toString_hex iv +:+ ":" +:+ Buffer.toString_hex encrypted).

Definition decryptToken (encryptedToken : string) : result string :=
  match split ":" encryptedToken with
  | [] => Throw (TypeError "Cannot read properties of undefined")
  | first :: parts =>
      let iv := Buffer.from_hex first in
      let encrypted := Buffer.from_hex (join ":" parts) in
      decipher ← createDecipheriv (Buffer.from_hex ENCRYPTION_KEY) iv;
      decrypted ← decipher encrypted;
      Ok (Buffer.toString decrypted)
  end.

End Encryption.

(** ** The database schema (lib/db/schema.ts) *)

(* a row of social_connections; as what getConnections returns, the same
   record with the access token in clear: the SocialConnection of the guide *)
Module Conn.
Record t : Type := mk {
  id : string;
  userId : string;
  platform : string;
  accessToken : string;
  refreshToken : option string;
  tokenExpiresAt : option Z;
  platformUserId : string;
  platformUsername : option string;
  platformProfileImage : option string;
  scopes : list string;
  isActive : bool;
  connectedAt : Z;
  lastRefreshedAt : option Z
}.

Definition with_accessToken (tok : string) (c : t) : t :=
  mk (id c) (userId c) (platform c) tok (refreshToken c) (tokenExpiresAt c)
     (platformUserId c) (platformUsername c) (platformProfileImage c)
     (scopes c) (isActive c) (connectedAt c) (lastRefreshedAt c).
End Conn.

(* the argument of saveConnection *)
Module SaveData.
Record t : Type := mk {
  userId : string;
  platform : string;
  accessToken : string;
  refreshToken : option string;
  tokenExpiresAt : option Z;
  platformUserId : string;
  platformUsername : option string;
  platformProfileImage : option string;
  scopes : list string
}.
End SaveData.

(* lib/oauth/providers/base.ts *)
Module OAuthProvider.
Record t : Type := mk {
  name : string;
  clientId : string;
  clientSecret : string;
  authorizationUrl : string;
  tokenUrl : string;
  redirectUri : string;
  scopes : list string
}.
End OAuthProvider.

Module OAuthTokens.
Record t : Type := mk {
  accessToken : string;
  refreshToken : option string;
  expiresIn : option Z;
  tokenType : option string
}.
End OAuthTokens.

(* the object refreshTokenIfNeeded hands to updateConnection *)
Module Patch.
Record t : Type := mk {
  accessToken : string;
  refreshToken : option string;
  tokenExpiresAt : option Z
}.
End Patch.

(** ** The world the handlers run in *)

(* an outbound POST of fetch: the URL and the form fields of its body *)
Record HttpRequest : Type := {
  req_url : string;
  req_form : list (string * string)
}.

Record HttpResponse : Type := {
  status : Z;
  text : string
}.

(* response.ok *)
Definition ok (r : HttpResponse) : bool := (200 <=? status r) && (status r <=? 299).

(* calls that leave the process, in the order they are made *)
Inductive Event : Type :=
| EvFetch (rq : HttpRequest)
| EvFetchUserProfile (platform accessToken : string)
| EvRefreshAccessToken (platform : string) (refreshToken : option string)
| EvUpdateConnection (id : string) (p : Patch.t)
| EvConsoleError (e : Exn).   (* console.error in the callback's catch *)

Record World : Type := mkWorld {
  db : list Conn.t;          (* the social_connections table, oldest row first *)
  clock : Z;                 (* Date.now() *)
  trace : list Event
}.

(* a computation that may throw; the world it leaves is kept either way *)
Definition M (A : Type) : Type := World -> result A * World.

#[global] Instance M_ret : MRet M := fun A a w => (Ok a, w).

#[global] Instance M_bind : MBind M := fun A B k m w =>
  match m w with
  | (Ok a, w') => k a w'
  | (Throw e, w') => (Throw e, w')
  end.

Definition throw {A} (e : Exn) : M A := fun w => (Throw e, w).

Definition lift {A} (r : result A) : M A := fun w => (r, w).

(* try { body } catch (error) { handler(error) } *)
Definition try_catch {A} (body : M A) (handler : Exn -> M A) : M A := fun w =>
  match body w with
  | (Ok a, w') => (Ok a, w')
  | (Throw e, w') => handler e w'
  end.

Definition Date_now : M Z := fun w => (Ok (clock w), w).

Definition emit (ev : Event) : M unit := fun w =>
  (Ok tt, mkWorld (db w) (clock w) (trace w ++ [ev])).

(* an awaited call to a collaborator: it is recorded, takes [dt] milliseconds
   and settles with [r] *)
Definition await {A} (ev : Event) (dt : Z) (r : result A) : M A := fun w =>
  (r, mkWorld (db w) (clock w + dt) (trace w ++ [ev])).

(** ** lib/db/connections.ts *)

(* the values crypto.randomUUID() and crypto.randomBytes(IV_LENGTH) return
   during one saveConnection *)
Record Entropy : Type := {
  uuid : string;
  iv_access : Buffer.t;
  iv_refresh : Buffer.t
}.

(* db.insert(socialConnections).values(row): id is the primary key *)
Definition db_insert (row : Conn.t) : M unit := fun w =>
  if existsb (fun r => String.eqb (Conn.id r) (Conn.id row)) (db w)
  then (Throw (DbError "duplicate key value violates unique constraint"), w)
  else (Ok tt, mkWorld (db w ++ [row]) (clock w) (trace w)).

(* db.select().from(socialConnections).where(and(eq(userId), eq(isActive, true))) *)
Definition select_active (uid : string) (rows : list Conn.t) : list Conn.t :=
  List.filter (fun r => String.eqb (Conn.userId r) uid && Bool.eqb (Conn.isActive r) true) rows.

Section Connections.

Context {C : Cipher}.
Variable ENCRYPTION_KEY : string.

Definition saveConnection (rnd : Entropy) (data : SaveData.t) : M unit :=
  let id := uuid rnd in
  accessToken ← lift (encryptToken ENCRYPTION_KEY (iv_access rnd) (SaveData.accessToken data));
  refreshToken ← lift (if truthy_str (SaveData.refreshToken data)
                       then match SaveData.refreshToken data with
                            | Some rt => Some <$> encryptToken ENCRYPTION_KEY (iv_refresh rnd) rt
                            | None => Ok None
                            end
                       else Ok None);
  now ← Date_now;
  db_insert (Conn.mk id
                     (SaveData.userId data)
                     (SaveData.platform data)
                     accessToken
                     refreshToken
                     (SaveData.tokenExpiresAt data)
                     (SaveData.platformUserId data)
                     (SaveData.platformUsername data)
                     (SaveData.platformProfileImage data)
                     (SaveData.scopes data)
                     true
                     now
                     None).

Definition getConnections (userId : string) : M (list Conn.t) := fun w =>
  let connections := select_active userId (db w) in
  (mapM (fun conn => tok ← decryptToken ENCRYPTION_KEY (Conn.accessToken conn);
                     Ok (Conn.with_accessToken tok conn))
        connections,
   w).

End Connections.

(** ** Collaborators the guide calls and does not define *)

(* the fields the handlers read from response.json() *)
Record TokenJson : Type := {
  access_token : string;
  refresh_token : option string;
  expires_in : option Z;
  token_type : option string
}.

Record UserProfile : Type := {
  profile_id : string;
  username : option string;
  profileImage : option string
}.

Record Env : Type := {
  getProviderConfig : string -> option OAuthProvider.t;
  fetch : HttpRequest -> result HttpResponse;          (* the provider's answer *)
  json : HttpResponse -> result TokenJson;             (* response.json() *)
  fetchUserProfile : string -> string -> result UserProfile;
  getCurrentUserId : result string;
  refreshAccessToken : string -> option string -> result OAuthTokens.t;
  updateConnection : string -> Patch.t -> list Conn.t -> result (list Conn.t);
  latency : Z                                          (* time an awaited call takes *)
}.

(* await updateConnection(id, patch): a write to the table and nothing else *)
Definition db_update (env : Env) (id : string) (p : Patch.t) : M unit := fun w =>
  match updateConnection env id p (db w) with
  | Ok rows => (Ok tt, mkWorld rows (clock w) (trace w ++ [EvUpdateConnection id p]))
  | Throw e => (Throw e, mkWorld (db w) (clock w) (trace w ++ [EvUpdateConnection id p]))
  end.

(** ** lib/oauth/providers/utils.ts *)

Definition exchangeCodeForTokens (env : Env) (platform code : string) : M OAuthTokens.t :=
  provider ← match getProviderConfig env platform with
             | Some p => mret p
             | None => throw (TypeError "Cannot read properties of undefined (reading 'tokenUrl')")
             end;
  let rq := {| req_url := OAuthProvider.tokenUrl provider;
               req_form := [ ("client_id", OAuthProvider.clientId provider);
                             ("client_secret", OAuthProvider.clientSecret provider);
                             ("code", code);
                             ("grant_type", "authorization_code");
                             ("redirect_uri", OAuthProvider.redirectUri provider) ] |} in
  response ← await (EvFetch rq) (latency env) (fetch env rq);
  if negb (ok response) then
    let error := text response in
    throw (Error ("Token exchange failed: " +:+ error))
  else
    data ← lift (json env response);
    mret (OAuthTokens.mk (access_token data) (refresh_token data)
                         (expires_in data) (token_type data)).

(** ** Cookies, responses and the browser's cookie jar *)

Record Cookie : Type := {
  cookie_name : string;
  cookie_value : string;
  httpOnly : bool;
  secure : bool;
  sameSite : string;
  maxAge : Z                  (* seconds *)
}.

(* new URL(base) with the parameters set on its searchParams *)
Record URL : Type := {
  href : string;
  searchParams : list (string * string)
}.

Fixpoint searchParams_set (k v : string) (ps : list (string * string)) : list (string * string) :=
  match ps with
  | [] => [(k, v)]
  | (k', v') :: rest =>
      if String.eqb k' k then (k, v) :: List.filter (fun p => negb (String.eqb (fst p) k)) rest
      else (k', v') :: searchParams_set k v rest
  end.

Definition URL_set (k v : string) (u : URL) : URL :=
  {| href := href u; searchParams := searchParams_set k v (searchParams u) |}.

Inductive Body : Type :=
| Redirect (location : string)           (* NextResponse.redirect(string) *)
| RedirectURL (u : URL)                  (* NextResponse.redirect(url.toString()) *)
| Json (error : string) (status : Z).    (* NextResponse.json({ error }, { status }) *)

Record Response : Type := {
  body : Body;
  cookies_set : list Cookie;
  cookies_deleted : list string
}.

(** new URL(s), without a base.  The parser drops tabs and newlines and the
    leading control characters and spaces, and fails when what is left does
    not start with a scheme (a letter, then letters, digits, "+", "-", ".",
    then ":"); a path such as "/dashboard" has none.  What the parser checks
    beyond the scheme is the platform's: [URL_accepts]. *)

Class URLParser : Type := {
  URL_accepts : string -> bool
}.

Definition is_tab_or_newline (c : ascii) : bool :=
  let n := N_of_ascii c in ((n =? 9) || (n =? 10) || (n =? 13))%N.

Definition is_c0_or_space (c : ascii) : bool := (N_of_ascii c <=? 32)%N.

Definition is_alpha (c : ascii) : bool :=
  let n := N_of_ascii c in ((65 <=? n) && (n <=? 90) || (97 <=? n) && (n <=? 122))%N.

Definition is_scheme_char (c : ascii) : bool :=
  let n := N_of_ascii c in
  is_alpha c || ((48 <=? n) && (n <=? 57))%N || existsb (Ascii.eqb c) ["+"; "-"; "."]%char.

Fixpoint remove_tab_newline (s : string) : string :=
  match s with
  | EmptyString => EmptyString
  | String c rest =>
      if is_tab_or_newline c then remove_tab_newline rest
      else String c (remove_tab_newline rest)
  end.

Fixpoint strip_leading (s : string) : string :=
  match s with
  | EmptyString => EmptyString
  | String c rest => if is_c0_or_space c then strip_leading rest else s
  end.

(* scheme characters up to a colon *)
Fixpoint scheme_ends (s : string) : bool :=
  match s with
  | EmptyString => false
  | String c rest =>
      if Ascii.eqb c ":" then true
      else if is_scheme_char c then scheme_ends rest
      else false
  end.

Definition has_scheme (s : string) : bool :=
  match strip_leading (remove_tab_newline s) with
  | EmptyString => false
  | String c rest => is_alpha c && scheme_ends rest
  end.

Definition URL_canParse {P : URLParser} (s : string) : bool :=
  has_scheme s && URL_accepts s.

(* new URL(s): the parameters are kept apart from the rest of the URL *)
Definition new_URL {P : URLParser} (s : string) : result URL :=
  if URL_canParse s then Ok {| href := s; searchParams := [] |}
  else Throw (TypeError "Invalid URL").

(* the Error of next/server for a URL that does not parse; the URL is
   quoted in the message *)
Definition malformed_URL (url : string) : Exn :=
  Error ("URL is malformed " +:+
         String "034"%char
           (url +:+
            String "034"%char
              ". Please use only absolute URLs - https://nextjs.org/docs/messages/middleware-relative-urls")).

(* validateURL of next/server *)
Definition validateURL {P : URLParser} (url : string) : result string :=
  if URL_canParse url then Ok url else Throw (malformed_URL url).

(* NextResponse.redirect(url): the Location header is the validated URL *)
Definition NextResponse_redirect {P : URLParser} (url : string) : result Response :=
  location ← validateURL url;
  Ok {| body := Redirect location; cookies_set := []; cookies_deleted := [] |}.

Definition response_cookies_set (c : Cookie) (r : Response) : Response :=
  {| body := body r; cookies_set := cookies_set r ++ [c]; cookies_deleted := cookies_deleted r |}.

Definition response_cookies_delete (name : string) (r : Response) : Response :=
  {| body := body r; cookies_set := cookies_set r; cookies_deleted := cookies_deleted r ++ [name] |}.

(* The browser keeps, per cookie name, the value and the instant (ms) at
   which Max-Age runs out; an expired cookie is not sent any more. *)
Module Jar.

Abbreviation t := (gmap string (string * Z)).

Definition store (now : Z) (c : Cookie) (jar : t) : t :=
  <[cookie_name c := (cookie_value c, now + maxAge c * 1000)]> jar.

(* the jar after the browser received [r] at [now] *)
Definition receive (now : Z) (r : Response) (jar : t) : t :=
  foldr (fun name j => delete name j)
        (foldl (fun j c => store now c j) jar (cookies_set r))
        (cookies_deleted r).

(* the jar after a handler that returned [r] or threw: a handler that throws
   sends no response of its own, so no cookie changes *)
Definition after (now : Z) (r : result Response) (jar : t) : t :=
  match r with
  | Ok response => receive now response jar
  | Throw _ => jar
  end.

(* request.cookies of a request sent at [now] *)
Definition send (now : Z) (jar : t) : gmap string string :=
  omap (fun ve => if now <? snd ve then Some (fst ve) else None) jar.

End Jar.

(** ** encodeURIComponent, on the UTF-8 bytes of the string *)

Definition unreserved (c : ascii) : bool :=
  let n := N_of_ascii c in
  ((48 <=? n) && (n <=? 57) || (65 <=? n) && (n <=? 90) || (97 <=? n) && (n <=? 122))%N
  || existsb (Ascii.eqb c) ["-"; "_"; "."; "!"; "~"; "*"; "'"; "("; ")"]%char.

Definition HEX_digit (n : N) : ascii :=
  if (n <? 10)%N then ascii_of_N (48 + n) else ascii_of_N (55 + n).

Fixpoint encodeURIComponent (s : string) : string :=
  match s with
  | EmptyString => EmptyString
  | String c rest =>
      if unreserved c then String c (encodeURIComponent rest)
      else String "%" (String (HEX_digit (N_of_ascii c / 16))
                      (String (HEX_digit (N_of_ascii c mod 16)) (encodeURIComponent rest)))
  end.

(** ** The route handlers *)

Definition state_cookie_name (platform : string) : string := "oauth_state_" +:+ platform.

(* the cookie the initiation route builds for [state];
   [production] is process.env.NODE_ENV === 'production' *)
Definition state_cookie (production : bool) (platform state : string) : Cookie :=
  {| cookie_name := state_cookie_name platform;
     cookie_value := state;
     httpOnly := true;
     secure := production;
     sameSite := "lax";
     maxAge := 600 |}.

(* app/api/auth/[platform]/route.ts; [state] is the value of crypto.randomUUID().
   The cookie is set on [response], and the handler returns another response,
   built by a second NextResponse.redirect on the URL it has just
   serialised. *)
Definition GET_initiate {P : URLParser} (env : Env) (production : bool)
    (state platform : string) : result Response :=
  match getProviderConfig env platform with
  | None => Ok {| body := Json "Invalid platform" 400; cookies_set := []; cookies_deleted := [] |}
  | Some provider =>
      response ← NextResponse_redirect (OAuthProvider.authorizationUrl provider);
      let response := response_cookies_set (state_cookie production platform state) response in
      authUrl ← new_URL (OAuthProvider.authorizationUrl provider);
      let authUrl := URL_set "client_id" (OAuthProvider.clientId provider) authUrl in
      let authUrl := URL_set "redirect_uri" (OAuthProvider.redirectUri provider) authUrl in
      let authUrl := URL_set "response_type" "code" authUrl in
      let authUrl := URL_set "scope" (join " " (OAuthProvider.scopes provider)) authUrl in
      let authUrl := URL_set "state" state authUrl in
      Ok {| body := RedirectURL authUrl; cookies_set := []; cookies_deleted := [] |}
  end.

(* the query string and the cookies of a callback request *)
Record CallbackRequest : Type := {
  q_code : option string;        (* searchParams.get('code') *)
  q_state : option string;       (* searchParams.get('state') *)
  q_error : option string;       (* searchParams.get('error') *)
  cookies : gmap string string   (* request.cookies *)
}.

(* the relative URLs the callback hands to NextResponse.redirect *)
Definition location_error (error : string) : string :=
  "/dashboard/connections?error=" +:+ encodeURIComponent error.
Definition location_missing_parameters : string :=
  "/dashboard/connections?error=missing_parameters".
Definition location_invalid_state : string := "/dashboard/connections?error=invalid_state".
Definition location_connection_failed : string :=
  "/dashboard/connections?error=connection_failed".
Definition location_success : string := "/dashboard/connections?success=true".

(* storedState !== state, for a state that is a string *)
Definition state_differs (storedState : option string) (state : string) : bool :=
  match storedState with
  | Some s => negb (String.eqb s state)
  | None => true
  end.

Section Routes.

Context {C : Cipher} {P : URLParser}.
Variable ENCRYPTION_KEY : string.

(* app/api/auth/[platform]/callback/route.ts *)

(* the try block.  Nothing in the file binds [provider], so reading
   provider.scopes, the last field of saveConnection's argument, throws
   before saveConnection is called. *)
Definition callback_try (env : Env) (rnd : Entropy) (platform code : string) : M Response :=
  tokens ← exchangeCodeForTokens env platform code;
  userProfile ← await (EvFetchUserProfile platform (OAuthTokens.accessToken tokens))
                      (latency env)
                      (fetchUserProfile env platform (OAuthTokens.accessToken tokens));
  userId ← lift (getCurrentUserId env);
  now ← Date_now;
  provider ← (throw (ReferenceError "provider is not defined") : M OAuthProvider.t);
  _ ← saveConnection ENCRYPTION_KEY rnd
        (SaveData.mk userId
                     platform
                     (OAuthTokens.accessToken tokens)
                     (OAuthTokens.refreshToken tokens)
                     (if truthy_num (OAuthTokens.expiresIn tokens)
                      then Some (now + default 0 (OAuthTokens.expiresIn tokens) * 1000)
                      else None)
                     (profile_id userProfile)
                     (username userProfile)
                     (profileImage userProfile)
                     (OAuthProvider.scopes provider));
  response ← lift (NextResponse_redirect location_success);
  mret (response_cookies_delete (state_cookie_name platform) response).

(* the catch block *)
Definition callback_catch (error : Exn) : M Response :=
  _ ← emit (EvConsoleError error);
  lift (NextResponse_redirect location_connection_failed).

Definition GET_callback (env : Env) (rnd : Entropy) (platform : string)
                        (request : CallbackRequest) : M Response :=
  let code := q_code request in
  let state := q_state request in
  let error := q_error request in
  if truthy_str error then
    lift (NextResponse_redirect (location_error (default EmptyString error)))
  else if negb (truthy_str code) || negb (truthy_str state) then
    lift (NextResponse_redirect location_missing_parameters)
  else
    let storedState := cookies request !! state_cookie_name platform in
    if state_differs storedState (default EmptyString state) then
      lift (NextResponse_redirect location_invalid_state)
    else
      try_catch (callback_try env rnd platform (default EmptyString code)) callback_catch.

End Routes.

(** ** lib/oauth/token-refresh.ts *)

Definition bufferTime : Z := 5 * 60 * 1000.

Definition refreshTokenIfNeeded (env : Env) (connection : Conn.t) : M string :=
  match Conn.tokenExpiresAt connection with
  | None => mret (Conn.accessToken connection)
  | Some expiresAt =>
      now ← Date_now;
      let expiresIn := expiresAt - now in
      if expiresIn <? bufferTime then
        newTokens ← await (EvRefreshAccessToken (Conn.platform connection) (Conn.refreshToken connection))
                          (latency env)
                          (refreshAccessToken env (Conn.platform connection) (Conn.refreshToken connection));
        now' ← Date_now;
        let patch :=
          Patch.mk (OAuthTokens.accessToken newTokens)
                   (if truthy_str (OAuthTokens.refreshToken newTokens)
                    then OAuthTokens.refreshToken newTokens
                    else Conn.refreshToken connection)
                   (if truthy_num (OAuthTokens.expiresIn newTokens)
                    then Some (now' + default 0 (OAuthTokens.expiresIn newTokens) * 1000)
                    else None) in
        _ ← db_update env (Conn.id connection) patch;
        mret (OAuthTokens.accessToken newTokens)
      else
        mret (Conn.accessToken connection)
  end.

(** ** A concrete configuration, to run the model on *)

(* lib/oauth/providers/facebook.ts, the environment variables as arguments *)
Definition facebookProvider (FACEBOOK_APP_ID FACEBOOK_APP_SECRET NEXT_PUBLIC_APP_URL : string)
  : OAuthProvider.t :=
  {| OAuthProvider.name := "facebook";
     OAuthProvider.clientId := FACEBOOK_APP_ID;
     OAuthProvider.clientSecret := FACEBOOK_APP_SECRET;
     OAuthProvider.authorizationUrl := "https://www.facebook.com/v18.0/dialog/oauth";
     OAuthProvider.tokenUrl := "https://graph.facebook.com/v18.0/oauth/access_token";
     OAuthProvider.redirectUri := NEXT_PUBLIC_APP_URL +:+ "/api/auth/facebook/callback";
     OAuthProvider.scopes := ["pages_manage_posts"; "pages_read_engagement"; "pages_show_list"] |}.

Module Sample.

(* a 32-byte key in hex *)
Definition KEY : string :=
  "000102030405060708090a0b0c0d0e0f101112131415161718191a1b1c1d1e1f".

Definition iv (b : byte) : Buffer.t := repeat b 16.

Definition rnd (id : string) (a r : byte) : Entropy :=
  {| uuid := id; iv_access := iv a; iv_refresh := iv r |}.

Definition registry (platform : string) : option OAuthProvider.t :=
  if String.eqb platform "facebook"
  then Some (facebookProvider "app-id" "app-secret" "https://yourdomain.com")
  else None.

(* an updateConnection that overwrites the three fields of the row [id] *)
Definition set_tokens (id : string) (p : Patch.t) (rows : list Conn.t) : result (list Conn.t) :=
  Ok (map (fun r =>
             if String.eqb (Conn.id r) id
             then Conn.mk (Conn.id r) (Conn.userId r) (Conn.platform r)
                          (Patch.accessToken p) (Patch.refreshToken p) (Patch.tokenExpiresAt p)
                          (Conn.platformUserId r) (Conn.platformUsername r)
                          (Conn.platformProfileImage r) (Conn.scopes r) (Conn.isActive r)
                          (Conn.connectedAt r) (Conn.lastRefreshedAt r)
             else r)
          rows).

(* the provider answers every token request with [answer] and every
   refresh with [refreshed] *)
Definition env (answer : result HttpResponse) (refreshed : result OAuthTokens.t) : Env :=
  {| getProviderConfig := registry;
     fetch := fun _ => answer;
     json := fun _ => Ok {| access_token := "t1"; refresh_token := None;
                            expires_in := Some 3600; token_type := None |};
     fetchUserProfile := fun _ _ => Ok {| profile_id := "fb-1"; username := Some "page";
                                          profileImage := None |};
     getCurrentUserId := Ok "user-1";
     refreshAccessToken := fun _ _ => refreshed;
     updateConnection := set_tokens;
     latency := 120 |}.

Definition world0 : World := mkWorld [] 1000 [].

Definition data (refresh : option string) (account : string) : SaveData.t :=
  SaveData.mk "user-1" "facebook" "t1" refresh (Some 3601000) account (Some "page") None
              ["pages_manage_posts"].

End Sample.

(** ** What the code leaves behind, named for the statements below *)

Section Stored.

Context {C : Cipher}.
Variable ENCRYPTION_KEY : string.

(* the text encryptToken produces: hex IV, a colon, hex ciphertext *)
Definition sealed (iv : Buffer.t) (token : string) : string :=
  Buffer.toString_hex iv +:+ ":" +:+
  Buffer.toString_hex (cbc_encrypt (Buffer.from_hex ENCRYPTION_KEY) iv (Buffer.from_utf8 token)).

(* the refresh token column saveConnection writes *)
Definition stored_refreshToken (rnd : Entropy) (data : SaveData.t) : option string :=
  if truthy_str (SaveData.refreshToken data)
  then sealed (iv_refresh rnd) <$> SaveData.refreshToken data
  else None.

(* the row saveConnection inserts at time [now] *)
Definition saved_row (rnd : Entropy) (data : SaveData.t) (now : Z) : Conn.t :=
  Conn.mk (uuid rnd) (SaveData.userId data) (SaveData.platform data)
          (sealed (iv_access rnd) (SaveData.accessToken data))
          (stored_refreshToken rnd data)
          (SaveData.tokenExpiresAt data) (SaveData.platformUserId data)
          (SaveData.platformUsername data) (SaveData.platformProfileImage data)
          (SaveData.scopes data) true now None.

End Stored.

Definition fresh_id (id : string) (rows : list Conn.t) : bool :=
  negb (existsb (fun r => String.eqb (Conn.id r) id) rows).

(* the refreshAccessToken calls among some events *)
Fixpoint refresh_calls (evs : list Event) : list (string * option string) :=
  match evs with
  | [] => []
  | EvRefreshAccessToken p rt :: rest => (p, rt) :: refresh_calls rest
  | _ :: rest => refresh_calls rest
  end.

(* the object handed to updateConnection after a refresh that returned
   [newTokens] at time [now] *)
Definition refresh_patch (connection : Conn.t) (newTokens : OAuthTokens.t) (now : Z) : Patch.t :=
  Patch.mk (OAuthTokens.accessToken newTokens)
           (if truthy_str (OAuthTokens.refreshToken newTokens)
            then OAuthTokens.refreshToken newTokens
            else Conn.refreshToken connection)
           (if truthy_num (OAuthTokens.expiresIn newTokens)
            then Some (now + default 0 (OAuthTokens.expiresIn newTokens) * 1000)
            else None).

(* the one POST exchangeCodeForTokens sends *)
Definition token_request (provider : OAuthProvider.t) (code : string) : HttpRequest :=
  {| req_url := OAuthProvider.tokenUrl provider;
     req_form := [ ("client_id", OAuthProvider.clientId provider);
                   ("client_secret", OAuthProvider.clientSecret provider);
                   ("code", code);
                   ("grant_type", "authorization_code");
                   ("redirect_uri", OAuthProvider.redirectUri provider) ] |}.

Fixpoint fetch_calls (evs : list Event) : list HttpRequest :=
  match evs with
  | [] => []
  | EvFetch rq :: rest => rq :: fetch_calls rest
  | _ :: rest => fetch_calls rest
  end.

(* a callback that carries a code and a state, no error, and the cookies [sent] *)
Definition plain_callback (code state : string) (sent : gmap string string) : CallbackRequest :=
  {| q_code := Some code; q_state := Some state; q_error := None; cookies := sent |}.

Module RefreshSample.

Definition connection : Conn.t :=
  Conn.mk "id-1" "user-1" "facebook" "t1" (Some "r1") (Some 3601000)
          "fb-1" (Some "page") None ["pages_manage_posts"] true 1000 None.

(* the provider rejects the refresh token *)
Definition rejecting : Env :=
  Sample.env (Throw (Rejected "unused")) (Throw (Error "invalid_grant")).

(* the table after one saveConnection, some three minutes before the token
   expires *)
Definition world : World :=
  mkWorld (db (snd (saveConnection (C := toy_cipher) Sample.KEY (Sample.rnd "id-1" x0a x0b)
                                   (Sample.data (Some "r1") "fb-1") Sample.world0)))
          3400000 [].

End RefreshSample.

Module CallbackSample.

(* a parser that accepts every URL that has a scheme *)
Definition any_url : URLParser := {| URL_accepts := fun _ => true |}.

(* the browser received the state cookie for "xyz" at time 0 *)
Definition jar : Jar.t := Jar.store 0 (state_cookie true "facebook" "xyz") ∅.

Definition request (state : string) (error : option string) (now : Z) (j : Jar.t)
  : CallbackRequest :=
  {| q_code := Some "abc123"; q_state := Some state; q_error := error;
     cookies := Jar.send now j |}.


Definition dq : string := String "034"%char EmptyString.

(* the JSON text of a token response: access_token t1, expires_in 3600 *)
Definition token_body : string :=
  "{" +:+ dq +:+ "access_token" +:+ dq +:+ ":" +:+ dq +:+ "t1" +:+ dq +:+ ","
      +:+ dq +:+ "expires_in" +:+ dq +:+ ":3600}".

(* the token endpoint answers 200 with [token_body], the one text that
   response.json() is asked to parse here *)
Definition succeeding : Env :=
  {| getProviderConfig := Sample.registry;
     fetch := fun _ => Ok {| status := 200; text := token_body |};
     json := fun r => if String.eqb (text r) token_body
                      then Ok {| access_token := "t1"; refresh_token := None;
                                 expires_in := Some 3600; token_type := None |}
                      else Throw (Rejected "SyntaxError");
     fetchUserProfile := fun _ _ => Ok {| profile_id := "fb-1"; username := Some "page";
                                          profileImage := None |};
     getCurrentUserId := Ok "user-1";
     refreshAccessToken := fun _ _ => Throw (Rejected "unused");
     updateConnection := Sample.set_tokens;
     latency := 120 |}.


End CallbackSample.

(** ** The connections page (connections-list.tsx, connection-card.tsx)

    A component is its state and its handlers; what it renders is the data
    the JSX depends on.  A JSX text with embedded numbers is a list of
    nodes. *)

Module UI.

Inductive Node : Type :=
| Text (s : string)
| Num (n : nat).

Record ConnectedAccount : Type := {
  username : string;
  profileImage : option string;
  connectedAt : string
}.

Record SocialPlatform : Type := {
  id : string;
  name : string;
  icon : string;
  color : string;
  description : string;
  isConnected : bool;
  connectedAccount : option ConnectedAccount;
  apiName : string;
  developerPortal : string
}.

(* the mock data of connections-list.tsx *)
Definition platforms : list SocialPlatform :=
  [
  {| id := "facebook"; name := "Facebook"; icon := "Facebook"; color := "#1877F2";
     description := "Connect your Facebook page to schedule posts and access insights";
     isConnected := false; connectedAccount := None;
     apiName := "Facebook Graph API";
     developerPortal := "https://developers.facebook.com" |};
  {| id := "instagram"; name := "Instagram"; icon := "Instagram"; color := "#E4405F";
     description := "Schedule posts, stories, and reels to your Instagram account";
     isConnected := false; connectedAccount := None;
     apiName := "Instagram Graph API";
     developerPortal := "https://developers.facebook.com/docs/instagram-api" |};
  {| id := "twitter"; name := "X (Twitter)"; icon := "Twitter"; color := "#000000";
     description := "Post tweets, threads, and manage your X account";
     isConnected := false; connectedAccount := None;
     apiName := "Twitter API v2";
     developerPortal := "https://developer.twitter.com" |};
  {| id := "linkedin"; name := "LinkedIn"; icon := "Linkedin"; color := "#0A66C2";
     description := "Share professional content and connect with your network";
     isConnected := false; connectedAccount := None;
     apiName := "LinkedIn API";
     developerPortal := "https://www.linkedin.com/developers" |};
  {| id := "tiktok"; name := "TikTok"; icon := "Tiktok"; color := "#000000";
     description := "Schedule and manage your TikTok content";
     isConnected := false; connectedAccount := None;
     apiName := "TikTok Marketing API";
     developerPortal := "https://developers.tiktok.com" |};
  {| id := "youtube"; name := "YouTube"; icon := "Youtube"; color := "#FF0000";
     description := "Schedule video uploads and manage your YouTube channel";
     isConnected := false; connectedAccount := None;
     apiName := "YouTube Data API v3";
     developerPortal := "https://developers.google.com/youtube" |};
  {| id := "pinterest"; name := "Pinterest"; icon := "Pinterest"; color := "#BD081C";
     description := "Schedule pins and manage your Pinterest boards";
     isConnected := false; connectedAccount := None;
     apiName := "Pinterest API";
     developerPortal := "https://developers.pinterest.com" |};
  {| id := "threads"; name := "Threads"; icon := "Threads"; color := "#000000";
     description := "Connect your Threads account to schedule posts";
     isConnected := false; connectedAccount := None;
     apiName := "Threads API (via Instagram Graph API)";
     developerPortal := "https://developers.facebook.com/docs/threads" |}
  ].

(* ConnectionsList: the useState set, and window.location.href once a
   handler has assigned it *)
Record ListState : Type := {
  connectedPlatforms : gset string;
  location_href : option string
}.

Definition initial : ListState :=
  {| connectedPlatforms := ∅; location_href := None |}.

Definition handleConnect (platformId : string) (st : ListState) : ListState :=
  {| connectedPlatforms := connectedPlatforms st;
     location_href := Some ("/api/auth/" +:+ platformId) |}.

Definition handleDisconnect (platformId : string) (st : ListState) : ListState :=
  {| connectedPlatforms := connectedPlatforms st ∖ {[platformId]};
     location_href := location_href st |}.

Definition handleRefresh (platformId : string) (st : ListState) : ListState := st.

(* the summary card: the badge, when there is one, and the message *)
Record Summary : Type := {
  badge : option (list Node);
  message : list Node
}.

Definition render_summary (st : ListState) : Summary :=
  let connectedCount := size (connectedPlatforms st) in
  let totalCount := length platforms in
  {| badge := if (0 <? connectedCount)%nat
              then Some [Num connectedCount; Text " of "; Num totalCount; Text " connected"]
              else None;
     message := if (connectedCount =? 0)%nat
                then [Text "No accounts connected yet. Connect your first account to get started."]
                else [Text "You have "; Num connectedCount; Text " ";
                      Text (if (connectedCount =? 1)%nat then "account" else "accounts");
                      Text " connected. Connect more platforms to expand your reach."] |}.

(* the isConnected prop the list hands to the card of [platform] *)
Definition card_isConnected (st : ListState) (platform : SocialPlatform) : bool :=
  bool_decide (id platform ∈ connectedPlatforms st).

(* ConnectionCard: its two useState flags and the toasts it has raised *)
Record CardState : Type := {
  isConnecting : bool;
  isRefreshing : bool
}.

Inductive Toast : Type :=
| toast_success (msg : string)
| toast_error (msg : string).

Definition card_initial : CardState := {| isConnecting := false; isRefreshing := false |}.

(* the handlers, given how the awaited prop (onConnect, ...) settled *)
Definition card_handleConnect (platform : SocialPlatform) (onConnect : result unit)
    (st : CardState * list Toast) : CardState * list Toast :=
  let st1 := {| isConnecting := true; isRefreshing := isRefreshing (fst st) |} in
  match onConnect with
  | Ok _ => (st1, snd st)
  | Throw _ =>
      ({| isConnecting := false; isRefreshing := isRefreshing st1 |},
       snd st ++ [toast_error ("Failed to connect " +:+ name platform)])
  end.

Definition card_handleDisconnect (platform : SocialPlatform) (onDisconnect : result unit)
    (st : CardState * list Toast) : CardState * list Toast :=
  match onDisconnect with
  | Ok _ => (fst st, snd st ++ [toast_success (name platform +:+ " disconnected successfully")])
  | Throw _ => (fst st, snd st ++ [toast_error ("Failed to disconnect " +:+ name platform)])
  end.

Definition card_handleRefresh (platform : SocialPlatform) (onRefresh : result unit)
    (st : CardState * list Toast) : CardState * list Toast :=
  let st1 := {| isConnecting := isConnecting (fst st); isRefreshing := true |} in
  let toasts :=
    match onRefresh with
    | Ok _ => snd st ++ [toast_success (name platform +:+ " connection refreshed")]
    | Throw _ => snd st ++ [toast_error ("Failed to refresh " +:+ name platform +:+ " connection")]
    end in
  ({| isConnecting := isConnecting st1; isRefreshing := false |}, toasts).

(* what the card shows below its header *)
Inductive CardBody : Type :=
| ConnectedView (account : ConnectedAccount) (refreshDisabled : bool)
| NotConnectedView (connectDisabled : bool) (connectLabel : string).

Record CardView : Type := {
  title : string;
  connectedBadge : bool;
  cardBody : CardBody
}.

Definition render_card (platform : SocialPlatform) (isConnected : bool) (st : CardState)
  : CardView :=
  {| title := name platform;
     connectedBadge := isConnected;
     cardBody :=
       match isConnected, connectedAccount platform with
       | true, Some account => ConnectedView account (isRefreshing st)
       | _, _ =>
           NotConnectedView (isConnecting st)
                            (if isConnecting st then "Connecting..."
                             else "Connect " +:+ name platform)
       end |}.

(* clicks that reach the handlers of the list, and of one card *)
Inductive ListEvent : Type :=
| Connect (platformId : string)
| Disconnect (platformId : string)
| Refresh (platformId : string).

Definition list_step (st : ListState) (ev : ListEvent) : ListState :=
  match ev with
  | Connect p => handleConnect p st
  | Disconnect p => handleDisconnect p st
  | Refresh p => handleRefresh p st
  end.

Inductive CardEvent : Type :=
| CardConnect (outcome : result unit)
| CardDisconnect (outcome : result unit)
| CardRefresh (outcome : result unit).

Definition card_step (platform : SocialPlatform) (st : CardState * list Toast) (ev : CardEvent)
  : CardState * list Toast :=
  match ev with
  | CardConnect o => card_handleConnect platform o st
  | CardDisconnect o => card_handleDisconnect platform o st
  | CardRefresh o => card_handleRefresh platform o st
  end.

(* how the last connect among [evs] settled, if there was one *)
Fixpoint last_connect (evs : list CardEvent) : option (result unit) :=
  match evs with
  | [] => None
  | ev :: rest =>
      match last_connect rest with
      | Some o => Some o
      | None => match ev with CardConnect o => Some o | _ => None end
      end
  end.

(* the handler runs that raise a toast *)
Definition raises_toast (ev : CardEvent) : bool :=
  match ev with
  | CardConnect (Ok _) => false
  | _ => true
  end.

End UI.

(** * Properties *)

(** ** The model at work *)

Example split_example : split ":" "ab:cd:e" = ["ab"; "cd"; "e"].
Proof. reflexivity. Qed.

Example hex_example : Buffer.toString_hex [x00; xff; x1a] = "00ff1a".
Proof. reflexivity. Qed.

Example from_hex_example : Buffer.from_hex "00FF1azz12" = [x00; xff; x1a].
Proof. reflexivity. Qed.

Example encodeURIComponent_example :
  encodeURIComponent "access_denied&x=1 y" = "access_denied%26x%3D1%20y".
Proof. reflexivity. Qed.

Example encryptToken_example :
  encryptToken (C := toy_cipher) Sample.KEY (Sample.iv x0a) "t1"
  = Ok "0a0a0a0a0a0a0a0a0a0a0a0a0a0a0a0a:31740a".
Proof. reflexivity. Qed.

Example decryptToken_example :
  decryptToken (C := toy_cipher) Sample.KEY "0a0a0a0a0a0a0a0a0a0a0a0a0a0a0a0a:31740a" = Ok "t1".
Proof. reflexivity. Qed.

(** ** Hex encoding and split *)

Lemma from_hex_byte_to_hex (b : byte) (s : string) :
  Buffer.from_hex (Buffer.byte_to_hex b +:+ s) = b :: Buffer.from_hex s.
Proof. destruct b; reflexivity. Qed.

Lemma from_hex_toString_hex (buf : Buffer.t) :
  Buffer.from_hex (Buffer.toString_hex buf) = buf.
Proof.
  induction buf as [|b rest IH]; [reflexivity|].
  cbn [Buffer.toString_hex]. rewrite from_hex_byte_to_hex. now rewrite IH.
Qed.

Lemma append_nil (s : string) : EmptyString +:+ s = s.
Proof. reflexivity. Qed.

Lemma append_cons (c : ascii) (s t : string) : String c s +:+ t = String c (s +:+ t).
Proof. reflexivity. Qed.

Lemma split_nonempty (sep : ascii) (s : string) : split sep s <> [].
Proof.
  destruct s as [|c s]; simpl; [discriminate|].
  destruct (Ascii.eqb c sep); [discriminate|].
  destruct (split sep s); discriminate.
Qed.

Lemma split_cons_ne (sep c : ascii) (s : string) :
  Ascii.eqb c sep = false ->
  split sep (String c s) = String c (hd EmptyString (split sep s)) :: tl (split sep s).
Proof.
  intros Hc. simpl. rewrite Hc.
  pose proof (split_nonempty sep s) as Hne.
  destruct (split sep s); [contradiction | reflexivity].
Qed.

Lemma byte_to_hex_chars (b : byte) :
  exists c1 c2, Buffer.byte_to_hex b = String c1 (String c2 EmptyString)
                /\ Ascii.eqb c1 ":" = false /\ Ascii.eqb c2 ":" = false.
Proof. destruct b; do 2 eexists; repeat split; reflexivity. Qed.

(* a hex dump holds no separator, so split cuts after it *)
Lemma split_byte_to_hex (b : byte) (s : string) :
  split ":" (Buffer.byte_to_hex b +:+ s)
  = (Buffer.byte_to_hex b +:+ hd EmptyString (split ":" s)) :: tl (split ":" s).
Proof.
  destruct (byte_to_hex_chars b) as (c1 & c2 & -> & H1 & H2).
  rewrite !append_cons, append_nil. rewrite (split_cons_ne _ c1) by exact H1.
  rewrite (split_cons_ne _ c2) by exact H2. reflexivity.
Qed.

Lemma append_assoc (a b c : string) : (a +:+ b) +:+ c = a +:+ (b +:+ c).
Proof. induction a as [|x a IH]; [reflexivity | now rewrite !append_cons, IH]. Qed.

Lemma split_toString_hex (buf : Buffer.t) (s : string) :
  split ":" (Buffer.toString_hex buf +:+ ":" +:+ s) = Buffer.toString_hex buf :: split ":" s.
Proof.
  induction buf as [|b rest IH]; [reflexivity|].
  cbn [Buffer.toString_hex]. rewrite append_assoc, split_byte_to_hex, IH.
  reflexivity.
Qed.

Lemma split_hex_only (buf : Buffer.t) :
  split ":" (Buffer.toString_hex buf) = [Buffer.toString_hex buf].
Proof.
  induction buf as [|b rest IH]; [reflexivity|].
  cbn [Buffer.toString_hex]. rewrite split_byte_to_hex, IH. reflexivity.
Qed.

(** ** Token encryption *)

Section EncryptionFacts.

Context {C : Cipher}.
Variable ENCRYPTION_KEY : string.
Hypothesis cipher_correct : CipherCorrect C.
Hypothesis key_length : length (Buffer.from_hex ENCRYPTION_KEY) = 32%nat.

Lemma encryptToken_sealed (iv : Buffer.t) (token : string) :
  length iv = 16%nat ->
  encryptToken ENCRYPTION_KEY iv token = Ok (sealed ENCRYPTION_KEY iv token).
Proof using key_length.
  intros Hiv. unfold encryptToken, createCipheriv.
  rewrite key_length, Hiv. reflexivity.
Qed.

Lemma decryptToken_sealed (iv : Buffer.t) (token : string) :
  length iv = 16%nat ->
  decryptToken ENCRYPTION_KEY (sealed ENCRYPTION_KEY iv token) = Ok token.
Proof using cipher_correct key_length.
  intros Hiv. unfold decryptToken, sealed.
  rewrite split_toString_hex, split_hex_only.
  cbn [join]. rewrite !from_hex_toString_hex.
  unfold createDecipheriv. rewrite key_length, Hiv. cbn.
  rewrite cipher_correct by assumption. cbn.
  unfold Buffer.toString, Buffer.from_utf8.
  now rewrite string_of_list_byte_of_string.
Qed.

End EncryptionFacts.

Lemma toy_cipher_correct : CipherCorrect toy_cipher.
Proof.
  intros key iv m _ _. cbn. unfold toy_decrypt, toy_encrypt.
  rewrite rev_unit, rev_involutive.
  now rewrite (Byte.byte_dec_lb eq_refl).
Qed.

(** C9. decryptToken undoes encryptToken: with a 32-byte key, for every
    16-byte IV and every token, encryptToken returns the hex IV, a colon and
    the hex ciphertext, and decryptToken of that text returns the token.  The
    IV is read back from the text itself, so nothing else is needed to
    decrypt. *)
Theorem decryptToken_encryptToken {C : Cipher} (ENCRYPTION_KEY : string)
    (iv : Buffer.t) (token : string) :
  CipherCorrect C ->
  length (Buffer.from_hex ENCRYPTION_KEY) = 32%nat ->
  length iv = 16%nat ->
  encryptToken ENCRYPTION_KEY iv token
  = Ok (Buffer.toString_hex iv +:+ ":" +:+
        Buffer.toString_hex (cbc_encrypt (Buffer.from_hex ENCRYPTION_KEY) iv
                                         (Buffer.from_utf8 token)))
  /\ (encrypted ← encryptToken ENCRYPTION_KEY iv token;
      decryptToken ENCRYPTION_KEY encrypted) = Ok token.
Proof.
  intros Hc Hk Hiv.
  rewrite (encryptToken_sealed _ Hk) by exact Hiv.
  split; [reflexivity|].
  cbn. now apply decryptToken_sealed.
Qed.

Lemma decryptToken_encryptToken_witness :
  (encrypted ← encryptToken (C := toy_cipher) Sample.KEY (Sample.iv x2a) "EAAB-token:1";
   decryptToken (C := toy_cipher) Sample.KEY encrypted) = Ok "EAAB-token:1".
Proof.
  apply (decryptToken_encryptToken (C := toy_cipher) Sample.KEY (Sample.iv x2a) "EAAB-token:1").
  - exact toy_cipher_correct.
  - reflexivity.
  - reflexivity.
Defined.

(** ** The connection table *)

Lemma mapM_result_snoc {A B} (f : A -> result B) (l : list A) (x : A) (l' : list B) (y : B) :
  mapM f l = Ok l' -> f x = Ok y -> mapM f (l ++ [x]) = Ok (l' ++ [y]).
Proof.
  revert l'. induction l as [|a l IH]; intros l' Hl Hx; cbn in *.
  - injection Hl as <-. now rewrite Hx.
  - destruct (f a) as [b|e]; cbn in *; [|discriminate].
    destruct (mapM f l) as [k|e]; cbn in *; [|discriminate].
    injection Hl as <-. now rewrite (IH k eq_refl Hx).
Qed.

Lemma select_active_snoc (uid : string) (rows : list Conn.t) (row : Conn.t) :
  Conn.userId row = uid -> Conn.isActive row = true ->
  select_active uid (rows ++ [row]) = select_active uid rows ++ [row].
Proof.
  intros Hu Ha. unfold select_active. rewrite List.filter_app. cbn.
  rewrite Hu, Ha, String.eqb_refl. reflexivity.
Qed.

Section ConnectionFacts.

Context {C : Cipher}.
Variable ENCRYPTION_KEY : string.
Hypothesis cipher_correct : CipherCorrect C.
Hypothesis key_length : length (Buffer.from_hex ENCRYPTION_KEY) = 32%nat.

Lemma saveConnection_inserts (rnd : Entropy) (data : SaveData.t) (w : World) :
  length (iv_access rnd) = 16%nat ->
  length (iv_refresh rnd) = 16%nat ->
  fresh_id (uuid rnd) (db w) = true ->
  saveConnection ENCRYPTION_KEY rnd data w
  = (Ok tt, mkWorld (db w ++ [saved_row ENCRYPTION_KEY rnd data (clock w)]) (clock w) (trace w)).
Proof using key_length.
  intros Ha Hr Hfresh. unfold saveConnection, saved_row, stored_refreshToken.
  unfold mbind, M_bind, lift.
  rewrite (encryptToken_sealed _ key_length) by exact Ha.
  destruct (SaveData.refreshToken data) as [rt|] eqn:Hrt; cbn [truthy_str].
  - rewrite (encryptToken_sealed _ key_length) by exact Hr.
    destruct (negb (String.eqb rt EmptyString)); cbn; unfold db_insert;
      unfold fresh_id in Hfresh; apply negb_true_iff in Hfresh;
      cbn [Conn.id]; rewrite Hfresh; reflexivity.
  - cbn. unfold db_insert.
    unfold fresh_id in Hfresh. apply negb_true_iff in Hfresh.
    cbn [Conn.id]. rewrite Hfresh. reflexivity.
Qed.

(* the entry getConnections returns for a saved row *)
Lemma getConnections_snoc_saved (rnd : Entropy) (data : SaveData.t) (now : Z)
      (w w' : World) (l : list Conn.t) :
  length (iv_access rnd) = 16%nat ->
  getConnections ENCRYPTION_KEY (SaveData.userId data) w = (Ok l, w) ->
  db w' = db w ++ [saved_row ENCRYPTION_KEY rnd data now] ->
  getConnections ENCRYPTION_KEY (SaveData.userId data) w'
  = (Ok (l ++ [Conn.with_accessToken (SaveData.accessToken data) (saved_row ENCRYPTION_KEY rnd data now)]), w').
Proof using cipher_correct key_length.
  intros Ha Hget Hdb. unfold getConnections in *.
  injection Hget as Hl. rewrite Hdb.
  rewrite select_active_snoc by reflexivity.
  erewrite mapM_result_snoc; [reflexivity | exact Hl |].
  cbn [saved_row Conn.accessToken].
  rewrite (decryptToken_sealed _ cipher_correct key_length) by exact Ha.
  reflexivity.
Qed.

End ConnectionFacts.

(** C3 (amended). saveConnection followed by getConnections gives every
    saved field back, the access token decrypted to the saved plaintext; the
    refresh token comes back as it is stored, encrypted (null when none was
    saved).  The stored row holds the two tokens only as encryptToken's
    output. *)
Theorem save_then_get {C : Cipher} (ENCRYPTION_KEY : string)
    (rnd : Entropy) (data : SaveData.t) (w : World) (l : list Conn.t) :
  CipherCorrect C ->
  length (Buffer.from_hex ENCRYPTION_KEY) = 32%nat ->
  length (iv_access rnd) = 16%nat ->
  length (iv_refresh rnd) = 16%nat ->
  fresh_id (uuid rnd) (db w) = true ->
  getConnections ENCRYPTION_KEY (SaveData.userId data) w = (Ok l, w) ->
  exists (w' : World) (row : Conn.t),
    saveConnection ENCRYPTION_KEY rnd data w = (Ok tt, w')
    /\ db w' = db w ++ [row]
    (* at rest *)
    /\ Conn.accessToken row = sealed ENCRYPTION_KEY (iv_access rnd) (SaveData.accessToken data)
    /\ Conn.refreshToken row
       = (if truthy_str (SaveData.refreshToken data)
          then sealed ENCRYPTION_KEY (iv_refresh rnd) <$> SaveData.refreshToken data
          else None)
    (* read back *)
    /\ getConnections ENCRYPTION_KEY (SaveData.userId data) w'
       = (Ok (l ++ [Conn.with_accessToken (SaveData.accessToken data) row]), w')
    /\ Conn.userId row = SaveData.userId data
    /\ Conn.platform row = SaveData.platform data
    /\ Conn.tokenExpiresAt row = SaveData.tokenExpiresAt data
    /\ Conn.platformUserId row = SaveData.platformUserId data
    /\ Conn.platformUsername row = SaveData.platformUsername data
    /\ Conn.platformProfileImage row = SaveData.platformProfileImage data
    /\ Conn.scopes row = SaveData.scopes data
    /\ Conn.isActive row = true.
Proof.
  intros Hc Hk Ha Hr Hfresh Hget.
  eexists. exists (saved_row ENCRYPTION_KEY rnd data (clock w)).
  split; [apply (saveConnection_inserts _ Hk); assumption|].
  split; [reflexivity|]. split; [reflexivity|]. split; [reflexivity|].
  split; [|repeat split; reflexivity].
  eapply (getConnections_snoc_saved _ Hc Hk); [exact Ha | exact Hget | reflexivity].
Qed.

Lemma save_then_get_witness :
  exists (w' : World) (row : Conn.t),
    saveConnection (C := toy_cipher) Sample.KEY (Sample.rnd "id-1" x0a x0b)
                   (Sample.data (Some "r1") "fb-1") Sample.world0 = (Ok tt, w')
    /\ getConnections (C := toy_cipher) Sample.KEY "user-1" w'
       = (Ok [Conn.with_accessToken "t1" row], w')
    /\ Conn.refreshToken row = Some "0b0b0b0b0b0b0b0b0b0b0b0b0b0b0b0b:31720b".
Proof.
  destruct (save_then_get (C := toy_cipher) Sample.KEY (Sample.rnd "id-1" x0a x0b)
              (Sample.data (Some "r1") "fb-1") Sample.world0 []
              toy_cipher_correct eq_refl eq_refl eq_refl eq_refl eq_refl)
    as (w' & row & Hsave & _ & _ & Hrt & Hget & _).
  exists w', row. split; [exact Hsave|]. split; [exact Hget|]. exact Hrt.
Defined.

(** C3, as stated, fails: a saved refresh token ["r1"] does not come back
    from getConnections, which returns the encrypted column. *)
Lemma save_then_get_counterexample :
  let data := Sample.data (Some "r1") "fb-1" in
  let w1 := snd (saveConnection (C := toy_cipher) Sample.KEY (Sample.rnd "id-1" x0a x0b)
                                data Sample.world0) in
  exists entry,
    fst (getConnections (C := toy_cipher) Sample.KEY "user-1" w1) = Ok [entry]
    /\ Conn.accessToken entry = SaveData.accessToken data
    /\ Conn.refreshToken entry = Some "0b0b0b0b0b0b0b0b0b0b0b0b0b0b0b0b:31720b"
    /\ Conn.refreshToken entry <> SaveData.refreshToken data.
Proof.
  cbv zeta. eexists. split; [vm_compute; reflexivity|].
  split; [reflexivity|]. split; [reflexivity|]. discriminate.
Qed.

(** C1 (amended). saveConnection deactivates nothing: each call inserts one
    more active row.  After two sequential saves for the same (user,
    platform), getConnections returns, after the entries it returned before,
    one entry per call for that platform, the first call's and then the
    second call's data. *)
Theorem save_twice_lists_both {C : Cipher} (ENCRYPTION_KEY : string)
    (rnd1 rnd2 : Entropy) (d1 d2 : SaveData.t) (w : World) (l : list Conn.t) :
  CipherCorrect C ->
  length (Buffer.from_hex ENCRYPTION_KEY) = 32%nat ->
  length (iv_access rnd1) = 16%nat -> length (iv_refresh rnd1) = 16%nat ->
  length (iv_access rnd2) = 16%nat -> length (iv_refresh rnd2) = 16%nat ->
  fresh_id (uuid rnd1) (db w) = true ->
  fresh_id (uuid rnd2) (db w) = true ->
  uuid rnd1 <> uuid rnd2 ->
  SaveData.userId d1 = SaveData.userId d2 ->
  SaveData.platform d1 = SaveData.platform d2 ->
  getConnections ENCRYPTION_KEY (SaveData.userId d1) w = (Ok l, w) ->
  exists (w1 w2 : World) (r1 r2 : Conn.t),
    saveConnection ENCRYPTION_KEY rnd1 d1 w = (Ok tt, w1)
    /\ saveConnection ENCRYPTION_KEY rnd2 d2 w1 = (Ok tt, w2)
    /\ db w2 = db w ++ [r1; r2]
    /\ getConnections ENCRYPTION_KEY (SaveData.userId d1) w2
       = (Ok (l ++ [Conn.with_accessToken (SaveData.accessToken d1) r1;
                    Conn.with_accessToken (SaveData.accessToken d2) r2]), w2)
    /\ Conn.isActive r1 = true /\ Conn.isActive r2 = true
    /\ Conn.platform r1 = SaveData.platform d1 /\ Conn.platform r2 = SaveData.platform d1
    /\ Conn.platformUserId r1 = SaveData.platformUserId d1
    /\ Conn.platformUserId r2 = SaveData.platformUserId d2
    /\ Conn.tokenExpiresAt r1 = SaveData.tokenExpiresAt d1
    /\ Conn.tokenExpiresAt r2 = SaveData.tokenExpiresAt d2.
Proof.
  intros Hc Hk Ha1 Hr1 Ha2 Hr2 Hf1 Hf2 Hne Hu Hp Hget.
  pose (w1 := mkWorld (db w ++ [saved_row ENCRYPTION_KEY rnd1 d1 (clock w)]) (clock w) (trace w)).
  pose (w2 := mkWorld (db w1 ++ [saved_row ENCRYPTION_KEY rnd2 d2 (clock w1)]) (clock w1) (trace w1)).
  exists w1, w2, (saved_row ENCRYPTION_KEY rnd1 d1 (clock w)),
         (saved_row ENCRYPTION_KEY rnd2 d2 (clock w1)).
  assert (Hsave1 : saveConnection ENCRYPTION_KEY rnd1 d1 w = (Ok tt, w1))
    by (apply (saveConnection_inserts _ Hk); assumption).
  assert (Hf2' : fresh_id (uuid rnd2) (db w1) = true).
  { unfold fresh_id in *. cbn [w1 db]. rewrite existsb_app. cbn.
    apply negb_true_iff in Hf2. rewrite Hf2. cbn.
    destruct (String.eqb_spec (uuid rnd1) (uuid rnd2)); [contradiction | reflexivity]. }
  assert (Hget1 : getConnections ENCRYPTION_KEY (SaveData.userId d1) w1
                  = (Ok (l ++ [Conn.with_accessToken (SaveData.accessToken d1)
                                 (saved_row ENCRYPTION_KEY rnd1 d1 (clock w))]), w1))
    by (eapply (getConnections_snoc_saved _ Hc Hk); [exact Ha1 | exact Hget | reflexivity]).
  split; [exact Hsave1|].
  split; [apply (saveConnection_inserts _ Hk); assumption|].
  split; [cbn [w2 w1 db]; rewrite <- List.app_assoc; reflexivity|].
  split.
  - rewrite Hu in Hget1 |- *.
    erewrite (getConnections_snoc_saved _ Hc Hk rnd2 d2 (clock w1) w1 w2);
      [ | exact Ha2 | exact Hget1 | reflexivity ].
    rewrite <- List.app_assoc. reflexivity.
  - repeat split; try reflexivity. cbn. now symmetry.
Qed.

Lemma save_twice_lists_both_witness :
  exists (w2 : World) (r1 r2 : Conn.t),
    db w2 = [r1; r2]
    /\ getConnections (C := toy_cipher) Sample.KEY "user-1" w2
       = (Ok [Conn.with_accessToken "t1" r1; Conn.with_accessToken "t1" r2], w2)
    /\ Conn.platformUserId r1 = "fb-1" /\ Conn.platformUserId r2 = "fb-2".
Proof.
  destruct (save_twice_lists_both (C := toy_cipher) Sample.KEY
              (Sample.rnd "id-1" x0a x0b) (Sample.rnd "id-2" x0c x0d)
              (Sample.data None "fb-1") (Sample.data None "fb-2") Sample.world0 []
              toy_cipher_correct eq_refl eq_refl eq_refl eq_refl eq_refl eq_refl eq_refl
              ltac:(discriminate) eq_refl eq_refl eq_refl)
    as (w1 & w2 & r1 & r2 & _ & _ & Hdb & Hget & _ & _ & _ & _ & H1 & H2 & _).
  exists w2, r1, r2. repeat split; assumption.
Defined.

(** C1, as stated, fails: after two saves for ("user-1", "facebook") the
    list of active connections holds two entries for that platform. *)
Lemma save_twice_counterexample :
  let w1 := snd (saveConnection (C := toy_cipher) Sample.KEY (Sample.rnd "id-1" x0a x0b)
                                (Sample.data None "fb-1") Sample.world0) in
  let w2 := snd (saveConnection (C := toy_cipher) Sample.KEY (Sample.rnd "id-2" x0c x0d)
                                (Sample.data None "fb-2") w1) in
  (fun l => map (fun c => (Conn.platform c, Conn.platformUserId c, Conn.isActive c)) l)
    <$> fst (getConnections (C := toy_cipher) Sample.KEY "user-1" w2)
  = Ok [("facebook", "fb-1", true); ("facebook", "fb-2", true)].
Proof. vm_compute. reflexivity. Qed.

(* a successful save appends one active row and touches no other *)
Lemma saveConnection_appends_active {C : Cipher} (ENCRYPTION_KEY : string)
    (rnd : Entropy) (data : SaveData.t) (w w' : World) :
  saveConnection ENCRYPTION_KEY rnd data w = (Ok tt, w') ->
  exists row, db w' = db w ++ [row]
              /\ Conn.isActive row = true
              /\ Conn.userId row = SaveData.userId data
              /\ Conn.platform row = SaveData.platform data.
Proof.
  unfold saveConnection, mbind, M_bind, lift, Date_now, db_insert.
  destruct (encryptToken _ _ _) as [a|e]; [|discriminate].
  match goal with |- context [if ?b then ?x else Ok None] =>
    destruct (if b then x else Ok None) as [rt|e] end; [|discriminate].
  cbn [db]. destruct (existsb _ _); [discriminate|].
  intros [= <-]. eexists. cbn. repeat split; reflexivity.
Qed.

(** ** The refresh check *)

(** C4. For a connection with an expiry, refreshTokenIfNeeded calls
    refreshAccessToken, once and with the connection's platform and stored
    refresh token, exactly when expiry minus now is below 5 minutes
    (300000 ms); when the refresh succeeds, updateConnection is called for
    the connection's id with the new access token, the new refresh token (the
    old one when none came back) and the new expiry, and the new access
    token is returned. *)
Theorem refresh_iff_below_buffer (env : Env) (connection : Conn.t) (w : World) (expiresAt : Z) :
  Conn.tokenExpiresAt connection = Some expiresAt ->
  exists evs,
    trace (snd (refreshTokenIfNeeded env connection w)) = trace w ++ evs
    /\ refresh_calls evs
       = (if expiresAt - clock w <? 300000
          then [(Conn.platform connection, Conn.refreshToken connection)]
          else [])
    /\ (In (EvRefreshAccessToken (Conn.platform connection) (Conn.refreshToken connection)) evs
        <-> expiresAt - clock w < 5 * 60 * 1000)
    /\ forall newTokens rows,
         expiresAt - clock w < 5 * 60 * 1000 ->
         refreshAccessToken env (Conn.platform connection) (Conn.refreshToken connection)
         = Ok newTokens ->
         updateConnection env (Conn.id connection)
                          (refresh_patch connection newTokens (clock w + latency env)) (db w)
         = Ok rows ->
         fst (refreshTokenIfNeeded env connection w) = Ok (OAuthTokens.accessToken newTokens)
         /\ db (snd (refreshTokenIfNeeded env connection w)) = rows
         /\ evs = [EvRefreshAccessToken (Conn.platform connection) (Conn.refreshToken connection);
                   EvUpdateConnection (Conn.id connection)
                     (refresh_patch connection newTokens (clock w + latency env))].
Proof.
  intros Hexp. unfold refreshTokenIfNeeded. rewrite Hexp.
  unfold mbind, M_bind, Date_now, await, db_update, bufferTime. cbn [clock db trace].
  fold (refresh_patch connection).
  change (5 * 60 * 1000) with 300000.
  destruct (Z.ltb_spec (expiresAt - clock w) 300000) as [Hlt|Hge].
  - destruct (refreshAccessToken env _ _) as [nt|e] eqn:Href; cbn [clock db trace fst snd].
    + change (Patch.mk _ _ _) with (refresh_patch connection nt (clock w + latency env)).
      destruct (updateConnection env _ _ _) as [rows'|e] eqn:Hupd; cbn [clock db trace fst snd];
        eexists; (split; [rewrite <- List.app_assoc; reflexivity|]);
        (split; [reflexivity|]);
        (split; [split; [intros _; exact Hlt | intros _; left; reflexivity]|]);
        intros nt' rows _ [= <-] Hupd'; rewrite Hupd in Hupd'; [|discriminate].
      injection Hupd' as <-. repeat split; reflexivity.
    + eexists. split; [reflexivity|]. split; [reflexivity|].
      split; [split; [intros _; exact Hlt | intros _; left; reflexivity]|].
      intros nt rows _ [=].
  - cbn [fst snd trace]. exists []. split; [now rewrite List.app_nil_r|].
    split; [reflexivity|]. split; [split; [intros [] | lia]|].
    intros nt rows Hlt. lia.
Qed.

Lemma refresh_iff_below_buffer_witness :
  exists evs,
    trace (snd (refreshTokenIfNeeded
                  (Sample.env (Throw (Rejected "unused"))
                              (Ok (OAuthTokens.mk "t2" None (Some 7200) None)))
                  (Conn.mk "id-1" "user-1" "facebook" "t1" (Some "r1") (Some 3601000)
                           "fb-1" None None [] true 1000 None)
                  (mkWorld [] 3400000 [])))
    = [] ++ evs
    /\ refresh_calls evs = [("facebook", Some "r1")].
Proof.
  destruct (refresh_iff_below_buffer
              (Sample.env (Throw (Rejected "unused"))
                          (Ok (OAuthTokens.mk "t2" None (Some 7200) None)))
              (Conn.mk "id-1" "user-1" "facebook" "t1" (Some "r1") (Some 3601000)
                       "fb-1" None None [] true 1000 None)
              (mkWorld [] 3400000 []) 3601000 eq_refl)
    as (evs & Htrace & Hcalls & _).
  exists evs. split; [exact Htrace | exact Hcalls].
Defined.

Example refresh_example :
  refreshTokenIfNeeded
    (Sample.env (Throw (Rejected "unused")) (Ok (OAuthTokens.mk "t2" None (Some 7200) None)))
    (Conn.mk "id-1" "user-1" "facebook" "t1" (Some "r1") (Some 3601000)
             "fb-1" None None [] true 1000 None)
    (mkWorld [Conn.mk "id-1" "user-1" "facebook" "sealed-t1" (Some "sealed-r1") (Some 3601000)
                      "fb-1" None None [] true 1000 None] 3400000 [])
  = (Ok "t2",
     mkWorld [Conn.mk "id-1" "user-1" "facebook" "t2" (Some "r1") (Some (3400120 + 7200000))
                      "fb-1" None None [] true 1000 None]
             3400120
             [EvRefreshAccessToken "facebook" (Some "r1");
              EvUpdateConnection "id-1" (Patch.mk "t2" (Some "r1") (Some 10600120))]).
Proof. reflexivity. Qed.

(** C10. A connection without an expiry is left alone: refreshTokenIfNeeded
    returns its access token and changes nothing in the world (no refresh
    call, no write), whatever the clock says. *)
Theorem refresh_noop_without_expiry (env : Env) (connection : Conn.t) (w : World) :
  Conn.tokenExpiresAt connection = None ->
  refreshTokenIfNeeded env connection w = (Ok (Conn.accessToken connection), w).
Proof. intros Hnone. unfold refreshTokenIfNeeded. now rewrite Hnone. Qed.

Lemma refresh_noop_without_expiry_witness :
  refreshTokenIfNeeded
    (Sample.env (Throw (Rejected "unused")) (Throw (Rejected "unused")))
    (Conn.mk "id-1" "user-1" "facebook" "t1" (Some "r1") None "fb-1" None None [] true 1000 None)
    (mkWorld [] 99999999999 [])
  = (Ok "t1", mkWorld [] 99999999999 []).
Proof.
  apply (refresh_noop_without_expiry
           (Sample.env (Throw (Rejected "unused")) (Throw (Rejected "unused")))
           (Conn.mk "id-1" "user-1" "facebook" "t1" (Some "r1") None "fb-1" None None [] true
                    1000 None)
           (mkWorld [] 99999999999 [])).
  reflexivity.
Defined.

Lemma refresh_calls_app (evs evs' : list Event) :
  refresh_calls (evs ++ evs') = refresh_calls evs ++ refresh_calls evs'.
Proof.
  induction evs as [|ev evs IH]; [reflexivity|].
  destruct ev; cbn; now rewrite IH.
Qed.

(* below the buffer the provider is asked, whatever it answers *)
Lemma refreshTokenIfNeeded_asks (env : Env) (connection : Conn.t) (w : World) (expiresAt : Z) :
  Conn.tokenExpiresAt connection = Some expiresAt ->
  expiresAt - clock w < bufferTime ->
  exists evs,
    trace (snd (refreshTokenIfNeeded env connection w)) = trace w ++ evs
    /\ refresh_calls evs = [(Conn.platform connection, Conn.refreshToken connection)].
Proof.
  intros Hexp Hlt. unfold refreshTokenIfNeeded. rewrite Hexp.
  unfold mbind, M_bind, Date_now, await, db_update. cbn [clock db trace].
  apply Z.ltb_lt in Hlt. rewrite Hlt.
  destruct (refreshAccessToken env _ _) as [nt|e]; cbn [clock db trace fst snd].
  - destruct (updateConnection env _ _ _); cbn [trace snd];
      eexists; (split; [rewrite <- List.app_assoc; reflexivity | reflexivity]).
  - eexists. split; reflexivity.
Qed.

(** C5 (amended). When the refresh fails, for whatever cause,
    refreshTokenIfNeeded throws the failure and writes nothing: the table is
    as before, so the credential keeps its active flag and getConnections
    returns what it returned; and the next check, while still below the
    buffer, asks the provider again. *)
Theorem refresh_failure_keeps_connection {C : Cipher} (ENCRYPTION_KEY : string)
    (env : Env) (connection : Conn.t) (w : World) (expiresAt : Z) (e : Exn) :
  Conn.tokenExpiresAt connection = Some expiresAt ->
  expiresAt - clock w < 5 * 60 * 1000 ->
  refreshAccessToken env (Conn.platform connection) (Conn.refreshToken connection) = Throw e ->
  exists w1,
    refreshTokenIfNeeded env connection w = (Throw e, w1)
    /\ db w1 = db w
    /\ (forall userId,
          fst (getConnections ENCRYPTION_KEY userId w1)
          = fst (getConnections ENCRYPTION_KEY userId w))
    /\ (forall env',
          expiresAt - clock w1 < 5 * 60 * 1000 ->
          exists evs,
            trace (snd (refreshTokenIfNeeded env' connection w1)) = trace w1 ++ evs
            /\ refresh_calls evs = [(Conn.platform connection, Conn.refreshToken connection)]).
Proof.
  intros Hexp Hlt Hfail.
  exists (mkWorld (db w) (clock w + latency env)
                  (trace w ++ [EvRefreshAccessToken (Conn.platform connection)
                                                    (Conn.refreshToken connection)])).
  split.
  - unfold refreshTokenIfNeeded. rewrite Hexp.
    unfold mbind, M_bind, Date_now, await. cbn [clock db trace].
    apply Z.ltb_lt in Hlt. unfold bufferTime. rewrite Hlt, Hfail. reflexivity.
  - split; [reflexivity|]. split; [reflexivity|].
    intros env' Hlt'. apply (refreshTokenIfNeeded_asks env' _ _ expiresAt Hexp). exact Hlt'.
Qed.

Lemma refresh_failure_keeps_connection_witness :
  exists w1,
    refreshTokenIfNeeded RefreshSample.rejecting RefreshSample.connection RefreshSample.world
    = (Throw (Error "invalid_grant"), w1)
    /\ db w1 = db RefreshSample.world.
Proof.
  destruct (refresh_failure_keeps_connection (C := toy_cipher) Sample.KEY
              RefreshSample.rejecting RefreshSample.connection RefreshSample.world
              3601000 (Error "invalid_grant") eq_refl eq_refl eq_refl)
    as (w1 & Hrun & Hdb & _).
  exists w1. split; [exact Hrun | exact Hdb].
Defined.

(** C5, as stated, fails: the provider rejects the refresh token of an
    active connection; afterwards the connection is still listed, active, and
    a second check calls the provider a second time. *)
Lemma refresh_rejected_counterexample :
  let w1 := snd (refreshTokenIfNeeded RefreshSample.rejecting RefreshSample.connection
                                      RefreshSample.world) in
  let w2 := snd (refreshTokenIfNeeded RefreshSample.rejecting RefreshSample.connection w1) in
  fst (refreshTokenIfNeeded RefreshSample.rejecting RefreshSample.connection
                            RefreshSample.world) = Throw (Error "invalid_grant")
  /\ (fun l => map (fun c => (Conn.id c, Conn.isActive c)) l)
       <$> fst (getConnections (C := toy_cipher) Sample.KEY "user-1" w1)
     = Ok [("id-1", true)]
  /\ refresh_calls (trace w2) = [("facebook", Some "r1"); ("facebook", Some "r1")].
Proof. vm_compute. repeat split; reflexivity. Qed.

(** ** The token exchange *)

Lemma fetch_calls_app (evs evs' : list Event) :
  fetch_calls (evs ++ evs') = fetch_calls evs ++ fetch_calls evs'.
Proof.
  induction evs as [|ev evs IH]; [reflexivity|].
  destruct ev; cbn; now rewrite IH.
Qed.

(** C7 (amended). For every non-success response of the token endpoint,
    exchangeCodeForTokens throws an Error whose message is "Token exchange
    failed: " followed by the response body; the status is not part of it.
    It makes exactly one request and no retry. *)
Theorem exchange_fails_on_non_success (env : Env) (platform code : string) (w : World)
    (provider : OAuthProvider.t) (response : HttpResponse) :
  getProviderConfig env platform = Some provider ->
  fetch env (token_request provider code) = Ok response ->
  ok response = false ->
  exchangeCodeForTokens env platform code w
  = (Throw (Error ("Token exchange failed: " +:+ text response)),
     mkWorld (db w) (clock w + latency env) (trace w ++ [EvFetch (token_request provider code)]))
  /\ fetch_calls (trace (snd (exchangeCodeForTokens env platform code w)))
     = fetch_calls (trace w) ++ [token_request provider code].
Proof.
  intros Hprov Hfetch Hok.
  assert (Hrun : exchangeCodeForTokens env platform code w
                 = (Throw (Error ("Token exchange failed: " +:+ text response)),
                    mkWorld (db w) (clock w + latency env)
                            (trace w ++ [EvFetch (token_request provider code)]))).
  { unfold exchangeCodeForTokens. rewrite Hprov.
    unfold mbind, M_bind, mret, M_ret, await, throw.
    fold (token_request provider code). rewrite Hfetch, Hok. reflexivity. }
  split; [exact Hrun|].
  rewrite Hrun. cbn [snd trace]. now rewrite fetch_calls_app.
Qed.

Lemma exchange_fails_on_non_success_witness :
  exchangeCodeForTokens
    (Sample.env (Ok {| status := 400; text := "error=invalid_code" |})
                (Throw (Rejected "unused")))
    "facebook" "abc123" Sample.world0
  = (Throw (Error "Token exchange failed: error=invalid_code"),
     mkWorld [] 1120
       [EvFetch (token_request (facebookProvider "app-id" "app-secret" "https://yourdomain.com")
                               "abc123")]).
Proof.
  apply (exchange_fails_on_non_success
           (Sample.env (Ok {| status := 400; text := "error=invalid_code" |})
                       (Throw (Rejected "unused")))
           "facebook" "abc123" Sample.world0
           (facebookProvider "app-id" "app-secret" "https://yourdomain.com")
           {| status := 400; text := "error=invalid_code" |});
    reflexivity.
Defined.

(** C7, as stated, fails: the status does not reach the error.  A 400 and
    a 503 with the same body fail the exchange with the same Error. *)
Lemma exchange_error_counterexample :
  let e400 := Sample.env (Ok {| status := 400; text := "bad" |}) (Throw (Rejected "unused")) in
  let e503 := Sample.env (Ok {| status := 503; text := "bad" |}) (Throw (Rejected "unused")) in
  fst (exchangeCodeForTokens e400 "facebook" "abc123" Sample.world0)
  = Throw (Error "Token exchange failed: bad")
  /\ fst (exchangeCodeForTokens e503 "facebook" "abc123" Sample.world0)
     = fst (exchangeCodeForTokens e400 "facebook" "abc123" Sample.world0).
Proof. split; reflexivity. Qed.

(** ** The callback and its state cookie *)

Lemma Jar_send_lookup (now : Z) (jar : Jar.t) (name : string) :
  Jar.send now jar !! name
  = match jar !! name with
    | Some (v, e) => if now <? e then Some v else None
    | None => None
    end.
Proof.
  unfold Jar.send. rewrite lookup_omap.
  destruct (jar !! name) as [[v e]|]; reflexivity.
Qed.

(* a path has no scheme, so NextResponse.redirect throws on it *)
Lemma NextResponse_redirect_path {P : URLParser} (path : string) :
  NextResponse_redirect (String "/" path) = Throw (malformed_URL (String "/" path)).
Proof. reflexivity. Qed.

Lemma NextResponse_redirect_error {P : URLParser} (error : string) :
  NextResponse_redirect (location_error error) = Throw (malformed_URL (location_error error)).
Proof. apply NextResponse_redirect_path. Qed.

(* whatever NextResponse.redirect does with a URL, its response names no cookie *)
Lemma Jar_after_redirect {P : URLParser} (url : string) (now : Z) (jar : Jar.t) :
  Jar.after now (NextResponse_redirect url) jar = jar.
Proof.
  unfold NextResponse_redirect, validateURL.
  destruct (URL_canParse url); reflexivity.
Qed.

(* the initiation route returns, when it returns, a response without the
   cookie it built *)
Lemma GET_initiate_sets_no_cookie {P : URLParser} (env : Env) (production : bool)
    (state platform : string) (now : Z) (jar : Jar.t) :
  Jar.after now (GET_initiate env production state platform) jar = jar.
Proof.
  unfold GET_initiate. destruct (getProviderConfig env platform) as [provider|]; [|reflexivity].
  unfold NextResponse_redirect, validateURL, new_URL.
  destruct (URL_canParse (OAuthProvider.authorizationUrl provider)); reflexivity.
Qed.

Lemma state_differs_ne (storedState : option string) (state : string) :
  storedState <> Some state -> state_differs storedState state = true.
Proof.
  intros Hne. destruct storedState as [s|]; [|reflexivity]. cbn.
  destruct (String.eqb_spec s state) as [->|]; [now contradiction Hne | reflexivity].
Qed.

Lemma truthy_str_Some (o : option string) :
  truthy_str o = true -> exists s, o = Some s /\ s <> EmptyString.
Proof.
  destruct o as [s|]; [|discriminate]. cbn. intros H. exists s. split; [reflexivity|].
  intros ->. discriminate.
Qed.

Lemma truthy_str_ne (s : string) : s <> EmptyString -> truthy_str (Some s) = true.
Proof. intros Hne. cbn. destruct (String.eqb_spec s EmptyString); [contradiction | reflexivity]. Qed.

Section CallbackFacts.

Context {C : Cipher} {P : URLParser}.
Variable ENCRYPTION_KEY : string.


(* without the cookie, or with another value in it, a callback with code
   and state takes the invalid_state branch *)
Lemma callback_refused (env : Env) (rnd : Entropy) (platform code state : string)
      (sent : gmap string string) (w : World) :
  code <> EmptyString ->
  state <> EmptyString ->
  sent !! state_cookie_name platform <> Some state ->
  GET_callback ENCRYPTION_KEY env rnd platform (plain_callback code state sent) w
  = (NextResponse_redirect location_invalid_state, w).
Proof.
  intros Hcode Hstate Hsent.
  unfold GET_callback, plain_callback. cbn [q_code q_state q_error cookies].
  change (truthy_str None) with false. cbv iota.
  rewrite (truthy_str_ne _ Hcode), (truthy_str_ne _ Hstate). cbn [negb orb].
  cbn [from_option id]. now rewrite (state_differs_ne _ _ Hsent).
Qed.

(* the try block never ends well: it throws where the exchange, the profile
   fetch or the user lookup throws, and at provider.scopes otherwise; the
   table is as before and only the exchange has asked the token endpoint *)
Lemma callback_try_throws (env : Env) (rnd : Entropy) (platform code : string) (w : World) :
  exists e w',
    callback_try ENCRYPTION_KEY env rnd platform code w = (Throw e, w')
    /\ db w' = db w
    /\ fetch_calls (trace w')
       = fetch_calls (trace (snd (exchangeCodeForTokens env platform code w)))
    /\ (forall e0 w0, exchangeCodeForTokens env platform code w = (Throw e0, w0) ->
                      e = e0 /\ w' = w0).
Proof.
  assert (Hdb : db (snd (exchangeCodeForTokens env platform code w)) = db w).
  { unfold exchangeCodeForTokens, mbind, M_bind, mret, M_ret, await, throw, lift.
    destruct (getProviderConfig env platform); [|reflexivity].
    destruct (fetch env _) as [response|]; [|reflexivity].
    destruct (ok response); [|reflexivity].
    destruct (json env response); reflexivity. }
  unfold callback_try, mbind, M_bind.
  destruct (exchangeCodeForTokens env platform code w) as [[tokens|e] w1]; cbn [snd] in *.
  2:{ exists e, w1. split; [reflexivity|]. split; [exact Hdb|]. split; [reflexivity|].
      intros e0 w0 [= <- <-]. now split. }
  unfold await, lift, Date_now, throw.
  destruct (fetchUserProfile env platform (OAuthTokens.accessToken tokens)) as [profile|e].
  2:{ eexists _, _. split; [reflexivity|]. split; [exact Hdb|]. split; [|discriminate].
      cbn [trace]. rewrite fetch_calls_app. cbn. now rewrite List.app_nil_r. }
  destruct (getCurrentUserId env) as [uid|e].
  2:{ eexists _, _. split; [reflexivity|]. split; [exact Hdb|]. split; [|discriminate].
      cbn [trace]. rewrite fetch_calls_app. cbn. now rewrite List.app_nil_r. }
  eexists _, _. split; [reflexivity|]. split; [exact Hdb|]. split; [|discriminate].
  cbn [trace]. rewrite fetch_calls_app. cbn. now rewrite List.app_nil_r.
Qed.


End CallbackFacts.

(** C6 (amended). A callback whose presented state differs from the value
    of the state cookie changes nothing: no token request is sent and no
    row is written, whatever else the callback carries.  The handler takes
    the first branch that applies: with an error parameter it hands the
    provider's error to NextResponse.redirect, with a missing or empty code
    or state it hands it missing_parameters, and otherwise invalid_state;
    its outcome is that call's. *)
Theorem callback_state_mismatch {C : Cipher} {P : URLParser} (ENCRYPTION_KEY : string)
    (env : Env) (rnd : Entropy) (platform : string) (request : CallbackRequest) (w : World) :
  cookies request !! state_cookie_name platform <> q_state request ->
  snd (GET_callback ENCRYPTION_KEY env rnd platform request w) = w
  /\ (truthy_str (q_error request) = true ->
      fst (GET_callback ENCRYPTION_KEY env rnd platform request w)
      = NextResponse_redirect (location_error (default EmptyString (q_error request))))
  /\ (truthy_str (q_error request) = false ->
      truthy_str (q_code request) && truthy_str (q_state request) = false ->
      fst (GET_callback ENCRYPTION_KEY env rnd platform request w)
      = NextResponse_redirect location_missing_parameters)
  /\ (truthy_str (q_error request) = false ->
      truthy_str (q_code request) = true ->
      truthy_str (q_state request) = true ->
      fst (GET_callback ENCRYPTION_KEY env rnd platform request w)
      = NextResponse_redirect location_invalid_state).
Proof.
  intros Hne. unfold GET_callback.
  destruct (truthy_str (q_error request)).
  { repeat split; try discriminate. }
  destruct (truthy_str (q_code request)) eqn:Hcode; cbn [negb orb andb].
  2:{ repeat split; try discriminate. }
  destruct (truthy_str (q_state request)) eqn:Hstate; cbn [negb].
  2:{ repeat split; try discriminate. }
  destruct (truthy_str_Some _ Hstate) as (s & Hs & _).
  rewrite Hs in Hne |- *. cbn [from_option id].
  rewrite (state_differs_ne _ _ Hne).
  repeat split; try discriminate.
Qed.

Lemma callback_state_mismatch_witness :
  GET_callback (C := toy_cipher) (P := CallbackSample.any_url) Sample.KEY
               CallbackSample.succeeding (Sample.rnd "id-1" x0a x0b) "facebook"
               (CallbackSample.request "forged" None 1000 CallbackSample.jar) Sample.world0
  = (Throw (malformed_URL location_invalid_state), Sample.world0).
Proof.
  destruct (callback_state_mismatch (C := toy_cipher) (P := CallbackSample.any_url) Sample.KEY
              CallbackSample.succeeding (Sample.rnd "id-1" x0a x0b) "facebook"
              (CallbackSample.request "forged" None 1000 CallbackSample.jar) Sample.world0)
    as (Hworld & _ & _ & Hr).
  - vm_compute. discriminate.
  - rewrite (surjective_pairing (GET_callback _ _ _ _ _ _)).
    rewrite Hworld, (Hr eq_refl eq_refl eq_refl). reflexivity.
Defined.

(** C6, as stated, fails: a callback with state "forged" against the issued
    "xyz" that also carries error=access_denied takes the error branch, with
    the location of that error, not the invalid_state branch. *)
Lemma callback_state_mismatch_counterexample :
  GET_callback (C := toy_cipher) (P := CallbackSample.any_url) Sample.KEY
               CallbackSample.succeeding (Sample.rnd "id-1" x0a x0b) "facebook"
               (CallbackSample.request "forged" (Some "access_denied") 1000 CallbackSample.jar)
               Sample.world0
  = (Throw (malformed_URL "/dashboard/connections?error=access_denied"), Sample.world0)
  /\ NextResponse_redirect (P := CallbackSample.any_url)
       "/dashboard/connections?error=access_denied"
     <> NextResponse_redirect (P := CallbackSample.any_url) location_invalid_state.
Proof. split; [vm_compute; reflexivity | vm_compute; discriminate]. Qed.

(* once Max-Age has run out the browser sends the state cookie no more *)
Lemma Jar_send_expired (production : bool) (platform state : string) (t0 now : Z) (jar : Jar.t) :
  t0 + 600 * 1000 <= now ->
  Jar.send now (Jar.store t0 (state_cookie production platform state) jar)
    !! state_cookie_name platform = None.
Proof.
  intros Hlate. rewrite Jar_send_lookup. unfold Jar.store. cbn [cookie_name state_cookie].
  rewrite lookup_insert_eq. cbn [cookie_value maxAge state_cookie].
  destruct (Z.ltb_spec now (t0 + 600 * 1000)); [lia | reflexivity].
Qed.

(** C8 (amended). The state cookie lives 600 seconds and the handler has no
    expiry check of its own.  A callback that carries a code and the very
    state that was issued, from a browser whose cookie has run out, or that
    never held one, takes the invalid_state branch, the branch a wrong state
    takes; there is no separate answer for an expired state.  Nothing is
    requested from the provider and nothing is written. *)
Theorem callback_after_expiry {C : Cipher} {P : URLParser} (ENCRYPTION_KEY : string)
    (env : Env) (rnd : Entropy) (production : bool) (platform state code : string)
    (jar : Jar.t) (t0 now : Z) (w : World) :
  t0 + 600 * 1000 < now ->
  code <> EmptyString ->
  state <> EmptyString ->
  maxAge (state_cookie production platform state) = 10 * 60
  /\ GET_callback ENCRYPTION_KEY env rnd platform
       (plain_callback code state
          (Jar.send now (Jar.store t0 (state_cookie production platform state) jar))) w
     = (NextResponse_redirect location_invalid_state, w)
  /\ (jar !! state_cookie_name platform = None ->
      GET_callback ENCRYPTION_KEY env rnd platform
                   (plain_callback code state (Jar.send now jar)) w
      = (NextResponse_redirect location_invalid_state, w))
  /\ forall forged sent,
       forged <> EmptyString ->
       sent !! state_cookie_name platform <> Some forged ->
       GET_callback ENCRYPTION_KEY env rnd platform (plain_callback code forged sent) w
       = (NextResponse_redirect location_invalid_state, w).
Proof.
  intros Hlate Hcode Hstate. split; [reflexivity|]. split; [|split].
  - apply callback_refused; [exact Hcode | exact Hstate |].
    rewrite Jar_send_expired by lia. discriminate.
  - intros Hnone. apply callback_refused; [exact Hcode | exact Hstate |].
    rewrite Jar_send_lookup, Hnone. discriminate.
  - intros forged sent Hforged Hsent. now apply callback_refused.
Qed.

Lemma callback_after_expiry_witness :
  GET_callback (C := toy_cipher) (P := CallbackSample.any_url) Sample.KEY
               CallbackSample.succeeding (Sample.rnd "id-1" x0a x0b) "facebook"
               (plain_callback "abc123" "xyz" (Jar.send 600001 CallbackSample.jar))
               Sample.world0
  = (Throw (malformed_URL location_invalid_state), Sample.world0).
Proof.
  destruct (callback_after_expiry (C := toy_cipher) (P := CallbackSample.any_url) Sample.KEY
              CallbackSample.succeeding (Sample.rnd "id-1" x0a x0b) true "facebook" "xyz"
              "abc123" ∅ 0 600001 Sample.world0) as (_ & Hrun & _).
  - reflexivity.
  - discriminate.
  - discriminate.
  - exact Hrun.
Defined.

(** C8, as stated, fails: the initiation route issues "xyz"; the callback
    that presents "xyz" after the window has the outcome that a forged state
    has within the window, that of the invalid_state branch; nothing marks
    the expiry. *)
Lemma callback_after_expiry_counterexample :
  let issued := GET_initiate (P := CallbackSample.any_url) CallbackSample.succeeding true
                             "xyz" "facebook" in
  let jar := Jar.after 0 issued ∅ in
  let late := GET_callback (C := toy_cipher) (P := CallbackSample.any_url) Sample.KEY
                CallbackSample.succeeding (Sample.rnd "id-1" x0a x0b) "facebook"
                (plain_callback "abc123" "xyz" (Jar.send 600001 jar)) Sample.world0 in
  let forged := GET_callback (C := toy_cipher) (P := CallbackSample.any_url) Sample.KEY
                  CallbackSample.succeeding (Sample.rnd "id-1" x0a x0b) "facebook"
                  (plain_callback "abc123" "forged" (Jar.send 1000 jar)) Sample.world0 in
  (exists url, issued = Ok {| body := RedirectURL url; cookies_set := [];
                              cookies_deleted := [] |}
               /\ In ("state", "xyz") (searchParams url))
  /\ late = (Throw (malformed_URL location_invalid_state), Sample.world0)
  /\ forged = late.
Proof.
  cbv zeta. split; [|split; vm_compute; reflexivity].
  eexists. split; [vm_compute; reflexivity|]. cbn. tauto.
Qed.




(** * Further properties of the code *)

(** ** encryptToken and decryptToken at their edges *)

(* a successful encryptToken had a 32-byte key and a 16-byte IV *)
Lemma encryptToken_Ok_inv {C : Cipher} (ENCRYPTION_KEY : string) (iv : Buffer.t)
    (token encrypted : string) :
  encryptToken ENCRYPTION_KEY iv token = Ok encrypted ->
  length (Buffer.from_hex ENCRYPTION_KEY) = 32%nat
  /\ length iv = 16%nat
  /\ encrypted = sealed ENCRYPTION_KEY iv token.
Proof.
  unfold encryptToken, createCipheriv.
  destruct (Nat.eqb_spec (length iv) 16) as [Hiv|]; [|discriminate].
  destruct (Nat.eqb_spec (length (Buffer.from_hex ENCRYPTION_KEY)) 32) as [Hk|]; [|discriminate].
  cbn. intros [= <-]. repeat split; assumption.
Qed.

(* decoding a hex dump stops at the separator that follows it *)
Lemma from_hex_stops_at_colon (buf : Buffer.t) (s : string) :
  Buffer.from_hex (Buffer.toString_hex buf +:+ String ":" s) = buf.
Proof.
  induction buf as [|b rest IH].
  - destruct s; reflexivity.
  - cbn [Buffer.toString_hex]. rewrite append_assoc, from_hex_byte_to_hex. now rewrite IH.
Qed.

Lemma join_cons_split (sep : ascii) (p s : string) :
  join sep (p :: split sep s) = p +:+ String sep (join sep (split sep s)).
Proof.
  pose proof (split_nonempty sep s) as Hne.
  destruct (split sep s); [contradiction | reflexivity].
Qed.

(** X1. encryptToken is injective: an encrypted text comes from one IV and
    one token only. *)
Theorem encryptToken_injective {C : Cipher} (ENCRYPTION_KEY : string)
    (iv iv' : Buffer.t) (token token' encrypted : string) :
  CipherCorrect C ->
  encryptToken ENCRYPTION_KEY iv token = Ok encrypted ->
  encryptToken ENCRYPTION_KEY iv' token' = Ok encrypted ->
  iv = iv' /\ token = token'.
Proof.
  intros Hc H1 H2.
  apply encryptToken_Ok_inv in H1 as (Hk & Hiv & ->).
  apply encryptToken_Ok_inv in H2 as (_ & Hiv' & Heq).
  split.
  - apply (f_equal (split ":")) in Heq. unfold sealed in Heq.
    rewrite !split_toString_hex in Heq. injection Heq as Hhex _.
    apply (f_equal Buffer.from_hex) in Hhex. now rewrite !from_hex_toString_hex in Hhex.
  - pose proof (decryptToken_sealed _ Hc Hk iv token Hiv) as Hd.
    rewrite Heq, (decryptToken_sealed _ Hc Hk iv' token' Hiv') in Hd.
    now injection Hd.
Qed.

Lemma encryptToken_injective_witness :
  Sample.iv x0a = Sample.iv x0a /\ "t1" = "t1".
Proof.
  apply (encryptToken_injective (C := toy_cipher) Sample.KEY (Sample.iv x0a) (Sample.iv x0a)
           "t1" "t1" "0a0a0a0a0a0a0a0a0a0a0a0a0a0a0a0a:31740a" toy_cipher_correct);
    reflexivity.
Defined.

(** X2. decryptToken reads the ciphertext up to a second colon and ignores
    whatever follows it: an encrypted text with ":" and any tail appended
    still decrypts to the token. *)
Theorem decryptToken_ignores_tail {C : Cipher} (ENCRYPTION_KEY : string)
    (iv : Buffer.t) (token encrypted tail : string) :
  CipherCorrect C ->
  encryptToken ENCRYPTION_KEY iv token = Ok encrypted ->
  decryptToken ENCRYPTION_KEY (encrypted +:+ ":" +:+ tail) = Ok token.
Proof.
  intros Hc Henc. apply encryptToken_Ok_inv in Henc as (Hk & Hiv & ->).
  unfold decryptToken, sealed.
  rewrite !append_assoc, !split_toString_hex, join_cons_split.
  rewrite from_hex_toString_hex, from_hex_stops_at_colon.
  unfold createDecipheriv. rewrite Hk, Hiv. cbn.
  rewrite Hc by assumption. cbn.
  unfold Buffer.toString, Buffer.from_utf8. now rewrite string_of_list_byte_of_string.
Qed.

Lemma decryptToken_ignores_tail_witness :
  decryptToken (C := toy_cipher) Sample.KEY
               ("0a0a0a0a0a0a0a0a0a0a0a0a0a0a0a0a:31740a" +:+ ":" +:+ "anything:at all") = Ok "t1".
Proof.
  apply (decryptToken_ignores_tail (C := toy_cipher) Sample.KEY (Sample.iv x0a) "t1"
           "0a0a0a0a0a0a0a0a0a0a0a0a0a0a0a0a:31740a" "anything:at all" toy_cipher_correct).
  reflexivity.
Defined.





(** ** saveConnection and getConnections at their edges *)

(** X5. saveConnection never touches an existing row, the clock or the
    trace: when it returns, the table has gained exactly one row, active,
    with the generated id (which was not in the table) and the user and
    platform of the data; when it throws, the table is as it was. *)
Theorem saveConnection_appends_or_keeps {C : Cipher} (ENCRYPTION_KEY : string)
    (rnd : Entropy) (data : SaveData.t) (w : World) :
  clock (snd (saveConnection ENCRYPTION_KEY rnd data w)) = clock w
  /\ trace (snd (saveConnection ENCRYPTION_KEY rnd data w)) = trace w
  /\ match fst (saveConnection ENCRYPTION_KEY rnd data w) with
     | Ok _ =>
         exists row,
           db (snd (saveConnection ENCRYPTION_KEY rnd data w)) = db w ++ [row]
           /\ fresh_id (uuid rnd) (db w) = true
           /\ Conn.id row = uuid rnd
           /\ Conn.isActive row = true
           /\ Conn.userId row = SaveData.userId data
           /\ Conn.platform row = SaveData.platform data
     | Throw _ => db (snd (saveConnection ENCRYPTION_KEY rnd data w)) = db w
     end.
Proof.
  unfold saveConnection, mbind, M_bind, lift, Date_now, db_insert, fresh_id.
  destruct (encryptToken _ _ _) as [a|e]; [|repeat split].
  match goal with |- context [if ?b then ?x else Ok None] =>
    destruct (if b then x else Ok None) as [rt|e] end; [|repeat split].
  cbn [db Conn.id]. destruct (existsb _ _); cbn; [repeat split|].
  split; [reflexivity|]. split; [reflexivity|].
  eexists. repeat split; reflexivity.
Qed.

(** X6. The id is the primary key: when the generated id is already in the
    table, saveConnection throws the driver's error and inserts nothing. *)
Theorem saveConnection_duplicate_id {C : Cipher} (ENCRYPTION_KEY : string)
    (rnd : Entropy) (data : SaveData.t) (w : World) :
  length (Buffer.from_hex ENCRYPTION_KEY) = 32%nat ->
  length (iv_access rnd) = 16%nat ->
  length (iv_refresh rnd) = 16%nat ->
  fresh_id (uuid rnd) (db w) = false ->
  saveConnection ENCRYPTION_KEY rnd data w
  = (Throw (DbError "duplicate key value violates unique constraint"), w).
Proof.
  intros Hk Ha Hr Hdup. unfold saveConnection, mbind, M_bind, lift.
  rewrite (encryptToken_sealed _ Hk) by exact Ha.
  unfold fresh_id in Hdup. apply negb_false_iff in Hdup.
  destruct (SaveData.refreshToken data) as [rt|]; cbn [truthy_str].
  - rewrite (encryptToken_sealed _ Hk) by exact Hr.
    destruct (negb (String.eqb rt EmptyString)); cbn; unfold db_insert;
      cbn [Conn.id]; rewrite Hdup; reflexivity.
  - cbn. unfold db_insert. cbn [Conn.id]. rewrite Hdup. reflexivity.
Qed.

Lemma saveConnection_duplicate_id_witness :
  saveConnection (C := toy_cipher) Sample.KEY (Sample.rnd "id-1" x0c x0d)
                 (Sample.data None "fb-2") RefreshSample.world
  = (Throw (DbError "duplicate key value violates unique constraint"), RefreshSample.world).
Proof.
  apply (saveConnection_duplicate_id (C := toy_cipher) Sample.KEY (Sample.rnd "id-1" x0c x0d)
           (Sample.data None "fb-2") RefreshSample.world); reflexivity.
Defined.

Lemma mapM_result_Forall2 {A B} (f : A -> result B) (l : list A) (l' : list B) :
  mapM f l = Ok l' -> Forall2 (fun a b => f a = Ok b) l l'.
Proof.
  revert l'. induction l as [|a l IH]; intros l' H; cbn in H.
  - injection H as <-. constructor.
  - destruct (f a) as [b|e] eqn:Hfa; cbn in H; [|discriminate].
    destruct (mapM f l) as [k|e]; cbn in H; [|discriminate].
    injection H as <-. constructor; [exact Hfa | now apply IH].
Qed.

Lemma mapM_result_Throw {A B} (f : A -> result B) (l : list A) (x : A) (e : Exn) :
  In x l -> f x = Throw e -> exists e', mapM f l = Throw e'.
Proof.
  induction l as [|a l IH]; intros Hin Hx; [contradiction|].
  cbn. destruct Hin as [->|Hin].
  - rewrite Hx. now exists e.
  - destruct (f a) as [b|e0]; cbn; [|now exists e0].
    destruct (IH Hin Hx) as [e' ->]. now exists e'.
Qed.

(** X7. getConnections changes nothing and, when it returns, lists the
    active rows of that user and no other: one entry per such row, in table
    order, every entry with that user id and the active flag set. *)
Theorem getConnections_lists_active_rows {C : Cipher} (ENCRYPTION_KEY : string)
    (userId : string) (w w' : World) (l : list Conn.t) :
  getConnections ENCRYPTION_KEY userId w = (Ok l, w') ->
  w' = w
  /\ map Conn.id l = map Conn.id (select_active userId (db w))
  /\ Forall (fun c => Conn.userId c = userId /\ Conn.isActive c = true) l.
Proof.
  unfold getConnections. intros [= Hl <-]. split; [reflexivity|].
  apply mapM_result_Forall2 in Hl.
  assert (Hsel : Forall (fun c => Conn.userId c = userId /\ Conn.isActive c = true)
                        (select_active userId (db w))).
  { apply List.Forall_forall. intros c Hc. unfold select_active in Hc.
    apply List.filter_In in Hc as [_ Hc]. apply andb_true_iff in Hc as [Hu Ha].
    split; [now apply String.eqb_eq | now destruct (Conn.isActive c)]. }
  remember (select_active userId (db w)) as rows eqn:Hrows. clear Hrows.
  induction Hl as [|a b la lb Hab Hl IH]; [split; constructor|].
  apply List.Forall_cons_iff in Hsel as [[Hu Ha] Hsel'].
  destruct (IH Hsel') as [Hids Hall].
  destruct (decryptToken ENCRYPTION_KEY (Conn.accessToken a)) as [tok|e]; [|discriminate].
  cbn in Hab. injection Hab as <-. split.
  - cbn. now rewrite Hids.
  - constructor; [split; [exact Hu | exact Ha] | exact Hall].
Qed.

Lemma getConnections_lists_active_rows_witness :
  map Conn.id [Conn.with_accessToken "t1"
                 (saved_row (C := toy_cipher) Sample.KEY (Sample.rnd "id-1" x0a x0b)
                            (Sample.data (Some "r1") "fb-1") 1000)]
  = map Conn.id (select_active "user-1" (db RefreshSample.world)).
Proof.
  apply (getConnections_lists_active_rows (C := toy_cipher) Sample.KEY "user-1"
           RefreshSample.world RefreshSample.world).
  vm_compute. reflexivity.
Defined.

(** X8. The rows of other users and the inactive rows never matter to
    getConnections: with such a row anywhere in the table it returns, or
    throws, exactly what it does without the row. *)
Theorem getConnections_ignores_other_rows {C : Cipher} (ENCRYPTION_KEY : string)
    (userId : string) (before after : list Conn.t) (row : Conn.t) (now : Z) (t : list Event) :
  Conn.userId row <> userId \/ Conn.isActive row = false ->
  fst (getConnections ENCRYPTION_KEY userId (mkWorld (before ++ row :: after) now t))
  = fst (getConnections ENCRYPTION_KEY userId (mkWorld (before ++ after) now t)).
Proof.
  intros Hrow. unfold getConnections. cbn [fst db]. f_equal.
  unfold select_active. rewrite !List.filter_app. cbn [List.filter].
  destruct Hrow as [Hu|Ha].
  - destruct (String.eqb_spec (Conn.userId row) userId); [contradiction | reflexivity].
  - rewrite Ha. now rewrite andb_false_r.
Qed.

Lemma getConnections_ignores_other_rows_witness :
  fst (getConnections (C := toy_cipher) Sample.KEY "user-1"
         (mkWorld (db RefreshSample.world
                   ++ Conn.mk "id-9" "user-2" "facebook" "not even encrypted" None None
                              "fb-9" None None [] true 0 None :: [])
                  0 []))
  = fst (getConnections (C := toy_cipher) Sample.KEY "user-1"
           (mkWorld (db RefreshSample.world ++ []) 0 [])).
Proof.
  apply (getConnections_ignores_other_rows (C := toy_cipher) Sample.KEY "user-1").
  left. discriminate.
Defined.

(** X9. getConnections is all or nothing: when one active row of the user
    holds an access token that decryptToken rejects, the call throws and
    returns none of the user's connections. *)
Theorem getConnections_fails_on_bad_row {C : Cipher} (ENCRYPTION_KEY : string)
    (userId : string) (w : World) (row : Conn.t) (e : Exn) :
  In row (db w) ->
  Conn.userId row = userId ->
  Conn.isActive row = true ->
  decryptToken ENCRYPTION_KEY (Conn.accessToken row) = Throw e ->
  exists e', getConnections ENCRYPTION_KEY userId w = (Throw e', w).
Proof.
  intros Hin Hu Ha Hdec.
  assert (Hsel : In row (select_active userId (db w))).
  { unfold select_active. apply List.filter_In. split; [exact Hin|].
    rewrite Hu, Ha, String.eqb_refl. reflexivity. }
  unfold getConnections.
  destruct (mapM_result_Throw
              (fun conn => tok ← decryptToken ENCRYPTION_KEY (Conn.accessToken conn);
                           Ok (Conn.with_accessToken tok conn))
              _ row e Hsel) as [e' He'].
  - now rewrite Hdec.
  - exists e'. now rewrite He'.
Qed.

Lemma getConnections_fails_on_bad_row_witness :
  exists e',
    getConnections (C := toy_cipher) Sample.KEY "user-1"
      (mkWorld (db RefreshSample.world
                ++ [Conn.mk "id-2" "user-1" "twitter" "t2" None None "tw-1" None None [] true 0
                            None])
               0 [])
    = (Throw e',
       mkWorld (db RefreshSample.world
                ++ [Conn.mk "id-2" "user-1" "twitter" "t2" None None "tw-1" None None [] true 0
                            None])
               0 []).
Proof.
  apply (getConnections_fails_on_bad_row (C := toy_cipher) Sample.KEY "user-1" _
           (Conn.mk "id-2" "user-1" "twitter" "t2" None None "tw-1" None None [] true 0 None)
           (CryptoError "Invalid initialization vector")).
  - cbn. right. left. reflexivity.
  - reflexivity.
  - reflexivity.
  - reflexivity.
Defined.

(** ** exchangeCodeForTokens in every case *)

(** X10. For a platform that getProviderConfig does not know,
    exchangeCodeForTokens throws a TypeError before anything is sent: the
    world, its trace included, is unchanged. *)
Theorem exchange_unknown_platform (env : Env) (platform code : string) (w : World) :
  getProviderConfig env platform = None ->
  exchangeCodeForTokens env platform code w
  = (Throw (TypeError "Cannot read properties of undefined (reading 'tokenUrl')"), w)
  /\ fetch_calls (trace (snd (exchangeCodeForTokens env platform code w)))
     = fetch_calls (trace w).
Proof.
  intros Hnone.
  assert (Hrun : exchangeCodeForTokens env platform code w
                 = (Throw (TypeError "Cannot read properties of undefined (reading 'tokenUrl')"),
                    w)).
  { unfold exchangeCodeForTokens. rewrite Hnone. reflexivity. }
  split; [exact Hrun | now rewrite Hrun].
Qed.

Lemma exchange_unknown_platform_witness :
  exchangeCodeForTokens CallbackSample.succeeding "tiktok" "abc123" Sample.world0
  = (Throw (TypeError "Cannot read properties of undefined (reading 'tokenUrl')"),
     Sample.world0).
Proof.
  apply (exchange_unknown_platform CallbackSample.succeeding "tiktok" "abc123" Sample.world0).
  reflexivity.
Defined.

(* what one run of exchangeCodeForTokens can do *)
Lemma exchange_cases (env : Env) (platform code : string) (w : World) :
  (getProviderConfig env platform = None
   /\ exchangeCodeForTokens env platform code w
      = (Throw (TypeError "Cannot read properties of undefined (reading 'tokenUrl')"), w))
  \/ exists provider,
       getProviderConfig env platform = Some provider
       /\ snd (exchangeCodeForTokens env platform code w)
          = mkWorld (db w) (clock w + latency env)
                    (trace w ++ [EvFetch (token_request provider code)])
       /\ forall tokens,
            fst (exchangeCodeForTokens env platform code w) = Ok tokens ->
            exists response data,
              fetch env (token_request provider code) = Ok response
              /\ ok response = true
              /\ json env response = Ok data
              /\ tokens = OAuthTokens.mk (access_token data) (refresh_token data)
                                         (expires_in data) (token_type data).
Proof.
  unfold exchangeCodeForTokens.
  destruct (getProviderConfig env platform) as [provider|]; [right | left; split; reflexivity].
  exists provider. split; [reflexivity|].
  unfold mbind, M_bind, mret, M_ret, await, throw, lift.
  fold (token_request provider code).
  destruct (fetch env (token_request provider code)) as [response|e]; cbn [fst snd].
  - destruct (ok response) eqn:Hok; cbn [negb fst snd].
    + destruct (json env response) as [data|e] eqn:Hjson; cbn [fst snd].
      * split; [reflexivity|]. intros tokens [= <-]. now exists response, data.
      * split; [reflexivity | discriminate].
    + split; [reflexivity | discriminate].
  - split; [reflexivity | discriminate].
Qed.

(** X11. Whatever the provider does, one exchangeCodeForTokens sends at
    most one request, the POST to the provider's token URL, and never
    writes to the table; it returns tokens only when the one response was
    a 2xx whose body parsed, and then they are the body's fields. *)
Theorem exchange_at_most_one_request (env : Env) (platform code : string) (w : World) :
  db (snd (exchangeCodeForTokens env platform code w)) = db w
  /\ (exists evs,
        trace (snd (exchangeCodeForTokens env platform code w)) = trace w ++ evs
        /\ (length (fetch_calls evs) <= 1)%nat
        /\ forall rq, In rq (fetch_calls evs) ->
                      exists provider, getProviderConfig env platform = Some provider
                                       /\ rq = token_request provider code)
  /\ forall tokens,
       fst (exchangeCodeForTokens env platform code w) = Ok tokens ->
       exists provider response data,
         getProviderConfig env platform = Some provider
         /\ fetch env (token_request provider code) = Ok response
         /\ 200 <= status response <= 299
         /\ json env response = Ok data
         /\ OAuthTokens.accessToken tokens = access_token data
         /\ OAuthTokens.refreshToken tokens = refresh_token data
         /\ OAuthTokens.expiresIn tokens = expires_in data.
Proof.
  destruct (exchange_cases env platform code w)
    as [[Hnone Hrun] | (provider & Hprov & Hworld & Htokens)].
  - rewrite Hrun. cbn [fst snd]. split; [reflexivity|]. split.
    + exists []. split; [now rewrite List.app_nil_r|]. split; [cbn; lia | intros rq []].
    + discriminate.
  - rewrite Hworld. cbn [db trace]. split; [reflexivity|]. split.
    + exists [EvFetch (token_request provider code)]. split; [reflexivity|].
      split; [cbn; lia|]. intros rq [<-|[]]. now exists provider.
    + intros tokens Hok. destruct (Htokens tokens Hok) as (response & data & Hf & Hr & Hj & ->).
      exists provider, response, data. unfold ok in Hr.
      apply andb_true_iff in Hr as [H1 H2]. apply Z.leb_le in H1, H2.
      repeat split; try assumption.
Qed.

(** ** The route handlers in every case *)

Lemma unreserved_escape (c : ascii) :
  unreserved c = false ->
  unreserved (HEX_digit (N_of_ascii c / 16)) = true
  /\ unreserved (HEX_digit (N_of_ascii c mod 16)) = true.
Proof.
  destruct c as [[] [] [] [] [] [] [] []]; vm_compute; intros H;
    first [discriminate H | split; reflexivity].
Qed.

Lemma encodeURIComponent_chars (s : string) (c : ascii) :
  In c (list_ascii_of_string (encodeURIComponent s)) ->
  unreserved c = true \/ c = "%"%char.
Proof.
  induction s as [|a s IH]; cbn [encodeURIComponent list_ascii_of_string]; [intros []|].
  destruct (unreserved a) eqn:Ha; cbn [list_ascii_of_string In].
  - intros [<-|Hin]; [now left | now apply IH].
  - destruct (unreserved_escape a Ha) as [Hhi Hlo].
    intros [<-|[<-|[<-|Hin]]]; [now right | now left | now left | now apply IH].
Qed.

(** X12. An error parameter wins over everything else in the callback: the
    handler goes straight to NextResponse.redirect with ?error= followed by
    the encoded value, nothing is requested and nothing is written, even when
    code and state are valid.  The encoded value holds only unreserved
    characters and "%".  The location is a path, so the call throws "URL is
    malformed" and the handler with it. *)
Theorem callback_error_redirect {C : Cipher} {P : URLParser} (ENCRYPTION_KEY : string)
    (env : Env) (rnd : Entropy) (platform : string) (request : CallbackRequest) (w : World)
    (error : string) :
  q_error request = Some error ->
  error <> EmptyString ->
  GET_callback ENCRYPTION_KEY env rnd platform request w
  = (NextResponse_redirect ("/dashboard/connections?error=" +:+ encodeURIComponent error), w)
  /\ GET_callback ENCRYPTION_KEY env rnd platform request w
     = (Throw (malformed_URL ("/dashboard/connections?error=" +:+ encodeURIComponent error)), w)
  /\ forall c, In c (list_ascii_of_string (encodeURIComponent error)) ->
               unreserved c = true \/ c = "%"%char.
Proof.
  intros Herr Hne.
  assert (Hrun : GET_callback ENCRYPTION_KEY env rnd platform request w
                 = (NextResponse_redirect (location_error error), w)).
  { unfold GET_callback. rewrite Herr, (truthy_str_ne _ Hne). reflexivity. }
  split; [exact Hrun|]. split; [|apply encodeURIComponent_chars].
  rewrite Hrun, NextResponse_redirect_error. reflexivity.
Qed.

Lemma callback_error_redirect_witness :
  GET_callback (C := toy_cipher) (P := CallbackSample.any_url) Sample.KEY
               CallbackSample.succeeding (Sample.rnd "id-1" x0a x0b) "facebook"
               (CallbackSample.request "xyz" (Some "denied&success=true#") 1000
                                       CallbackSample.jar)
               Sample.world0
  = (Throw (malformed_URL ("/dashboard/connections?error="
                           +:+ encodeURIComponent "denied&success=true#")),
     Sample.world0).
Proof.
  apply (callback_error_redirect (C := toy_cipher) (P := CallbackSample.any_url) Sample.KEY
           CallbackSample.succeeding (Sample.rnd "id-1" x0a x0b) "facebook"
           (CallbackSample.request "xyz" (Some "denied&success=true#") 1000 CallbackSample.jar)
           Sample.world0 "denied&success=true#").
  - reflexivity.
  - discriminate.
Defined.

Lemma In_searchParams_set_new (k v : string) (ps : list (string * string)) :
  In (k, v) (searchParams_set k v ps).
Proof.
  induction ps as [|[k' v'] ps IH]; cbn; [now left|].
  destruct (String.eqb k' k); [now left | now right].
Qed.

(** X13. For a known platform whose authorization URL parses, the
    initiation route redirects to that URL with the generated state among
    its parameters, and the response it returns carries no cookie: the
    browser's jar is as before.  So for a browser that held no state cookie
    for the platform, the callback that presents this very state, with a code,
    takes the invalid_state branch (and throws there, the location being a
    path), at any time and whatever the provider would have said. *)
Theorem initiate_then_callback_refused {C : Cipher} {P : URLParser} (ENCRYPTION_KEY : string)
    (env env2 : Env) (rnd : Entropy) (production : bool) (platform state code : string)
    (provider : OAuthProvider.t) (jar : Jar.t) (t0 now : Z) (w : World) :
  getProviderConfig env platform = Some provider ->
  URL_canParse (OAuthProvider.authorizationUrl provider) = true ->
  code <> EmptyString ->
  state <> EmptyString ->
  jar !! state_cookie_name platform = None ->
  (exists url,
      GET_initiate env production state platform
      = Ok {| body := RedirectURL url; cookies_set := []; cookies_deleted := [] |}
      /\ href url = OAuthProvider.authorizationUrl provider
      /\ In ("state", state) (searchParams url))
  /\ Jar.after t0 (GET_initiate env production state platform) jar = jar
  /\ GET_callback ENCRYPTION_KEY env2 rnd platform
       (plain_callback code state
          (Jar.send now (Jar.after t0 (GET_initiate env production state platform) jar))) w
     = (Throw (malformed_URL location_invalid_state), w).
Proof.
  intros Hprov Hurl Hcode Hstate Hjar.
  split; [|split; [apply GET_initiate_sets_no_cookie|]].
  - unfold GET_initiate. rewrite Hprov.
    unfold NextResponse_redirect, validateURL, new_URL. rewrite Hurl. cbn.
    eexists. split; [reflexivity|]. split; [reflexivity|]. apply In_searchParams_set_new.
  - rewrite GET_initiate_sets_no_cookie.
    rewrite callback_refused; [reflexivity | exact Hcode | exact Hstate |].
    rewrite Jar_send_lookup, Hjar. discriminate.
Qed.

Lemma initiate_then_callback_refused_witness :
  GET_callback (C := toy_cipher) (P := CallbackSample.any_url) Sample.KEY
    CallbackSample.succeeding (Sample.rnd "id-1" x0a x0b) "facebook"
    (plain_callback "abc123" "xyz"
       (Jar.send 2000
          (Jar.after 1000 (GET_initiate (P := CallbackSample.any_url) CallbackSample.succeeding
                                        true "xyz" "facebook") ∅)))
    Sample.world0
  = (Throw (malformed_URL location_invalid_state), Sample.world0).
Proof.
  apply (initiate_then_callback_refused (C := toy_cipher) (P := CallbackSample.any_url)
           Sample.KEY CallbackSample.succeeding CallbackSample.succeeding
           (Sample.rnd "id-1" x0a x0b) true "facebook" "xyz" "abc123"
           (facebookProvider "app-id" "app-secret" "https://yourdomain.com") ∅ 1000 2000
           Sample.world0).
  - reflexivity.
  - reflexivity.
  - discriminate.
  - discriminate.
  - reflexivity.
Defined.

(* what the callback does in each of its four cases *)
Lemma callback_cases {C : Cipher} {P : URLParser} (ENCRYPTION_KEY : string)
    (env : Env) (rnd : Entropy) (platform : string) (request : CallbackRequest) (w : World) :
  GET_callback ENCRYPTION_KEY env rnd platform request w
  = (NextResponse_redirect (location_error (default EmptyString (q_error request))), w)
  \/ GET_callback ENCRYPTION_KEY env rnd platform request w
     = (NextResponse_redirect location_missing_parameters, w)
  \/ GET_callback ENCRYPTION_KEY env rnd platform request w
     = (NextResponse_redirect location_invalid_state, w)
  \/ exists e w',
       callback_try ENCRYPTION_KEY env rnd platform (default EmptyString (q_code request)) w
       = (Throw e, w')
       /\ db w' = db w
       /\ GET_callback ENCRYPTION_KEY env rnd platform request w
          = (NextResponse_redirect location_connection_failed,
             mkWorld (db w') (clock w') (trace w' ++ [EvConsoleError e])).
Proof.
  unfold GET_callback.
  destruct (truthy_str (q_error request)); [now left|].
  destruct (negb (truthy_str (q_code request)) || negb (truthy_str (q_state request)));
    [now right; left|].
  destruct (state_differs _ _); [now right; right; left|].
  right; right; right.
  destruct (callback_try_throws ENCRYPTION_KEY env rnd platform
              (default EmptyString (q_code request)) w) as (e & w' & Hrun & Hdb & _).
  exists e, w'. split; [exact Hrun|]. split; [exact Hdb|].
  unfold try_catch. rewrite Hrun. reflexivity.
Qed.

(** X14. The callback handler never returns a response.  Each of its paths
    ends in NextResponse.redirect on a path under /dashboard, which throws
    "URL is malformed"; the handler throws that error, naming the provider's
    error, missing_parameters, invalid_state or connection_failed.  The
    success location is never reached. *)
Theorem callback_always_throws {C : Cipher} {P : URLParser} (ENCRYPTION_KEY : string)
    (env : Env) (rnd : Entropy) (platform : string) (request : CallbackRequest) (w : World) :
  exists location,
    fst (GET_callback ENCRYPTION_KEY env rnd platform request w)
    = Throw (malformed_URL location)
    /\ (location = location_error (default EmptyString (q_error request))
        \/ location = location_missing_parameters
        \/ location = location_invalid_state
        \/ location = location_connection_failed).
Proof.
  destruct (callback_cases ENCRYPTION_KEY env rnd platform request w)
    as [-> | [-> | [-> | (e & w' & _ & _ & ->)]]]; eexists; (split; [reflexivity|]); tauto.
Qed.

(** X15. The callback handler never writes to the table and never changes
    a cookie: after it, whatever the request and whatever the collaborators
    answered, the table is as before and so is the browser's jar. *)
Theorem callback_never_writes {C : Cipher} {P : URLParser} (ENCRYPTION_KEY : string)
    (env : Env) (rnd : Entropy) (platform : string) (request : CallbackRequest) (w : World) :
  db (snd (GET_callback ENCRYPTION_KEY env rnd platform request w)) = db w
  /\ forall now (jar : Jar.t),
       Jar.after now (fst (GET_callback ENCRYPTION_KEY env rnd platform request w)) jar = jar.
Proof.
  destruct (callback_cases ENCRYPTION_KEY env rnd platform request w)
    as [-> | [-> | [-> | (e & w' & _ & Hdb & ->)]]]; cbn [fst snd db];
    (split; [first [reflexivity | exact Hdb] | intros; apply Jar_after_redirect]).
Qed.



(** ** refreshTokenIfNeeded in every case *)

(** X17. At five minutes or more before expiry, exactly five minutes
    included, refreshTokenIfNeeded returns the stored access token and
    changes nothing: no provider call, no write. *)
Theorem refresh_not_needed (env : Env) (connection : Conn.t) (w : World) (expiresAt : Z) :
  Conn.tokenExpiresAt connection = Some expiresAt ->
  5 * 60 * 1000 <= expiresAt - clock w ->
  refreshTokenIfNeeded env connection w = (Ok (Conn.accessToken connection), w).
Proof.
  intros Hexp Hfar. unfold refreshTokenIfNeeded. rewrite Hexp.
  unfold mbind, M_bind, Date_now, bufferTime.
  destruct (Z.ltb_spec (expiresAt - clock w) (5 * 60 * 1000)); [lia | reflexivity].
Qed.

Lemma refresh_not_needed_witness :
  refreshTokenIfNeeded RefreshSample.rejecting RefreshSample.connection
                       (mkWorld [] 3301000 [])
  = (Ok "t1", mkWorld [] 3301000 []).
Proof.
  apply (refresh_not_needed RefreshSample.rejecting RefreshSample.connection
           (mkWorld [] 3301000 []) 3601000).
  - reflexivity.
  - vm_compute. discriminate.
Defined.

(** X18. One refreshTokenIfNeeded asks the provider at most once and calls
    updateConnection at most once, and only after the provider returned new
    tokens; the table changes only by that updateConnection.  The token it
    returns is the stored one when the provider was not asked, and the
    provider's new one otherwise. *)
Theorem refresh_effects (env : Env) (connection : Conn.t) (w : World) :
  let asked := EvRefreshAccessToken (Conn.platform connection) (Conn.refreshToken connection) in
  exists evs,
    trace (snd (refreshTokenIfNeeded env connection w)) = trace w ++ evs
    /\ (evs = []
        /\ db (snd (refreshTokenIfNeeded env connection w)) = db w
        /\ fst (refreshTokenIfNeeded env connection w) = Ok (Conn.accessToken connection)
        \/ (exists e,
               evs = [asked]
               /\ db (snd (refreshTokenIfNeeded env connection w)) = db w
               /\ fst (refreshTokenIfNeeded env connection w) = Throw e)
        \/ exists newTokens,
            refreshAccessToken env (Conn.platform connection) (Conn.refreshToken connection)
            = Ok newTokens
            /\ evs = [asked;
                      EvUpdateConnection (Conn.id connection)
                        (refresh_patch connection newTokens (clock w + latency env))]
            /\ match updateConnection env (Conn.id connection)
                       (refresh_patch connection newTokens (clock w + latency env)) (db w) with
               | Ok rows =>
                   db (snd (refreshTokenIfNeeded env connection w)) = rows
                   /\ fst (refreshTokenIfNeeded env connection w)
                      = Ok (OAuthTokens.accessToken newTokens)
               | Throw e =>
                   db (snd (refreshTokenIfNeeded env connection w)) = db w
                   /\ fst (refreshTokenIfNeeded env connection w) = Throw e
               end).
Proof.
  intros asked. unfold refreshTokenIfNeeded.
  destruct (Conn.tokenExpiresAt connection) as [expiresAt|].
  2:{ exists []. split; [now rewrite List.app_nil_r | left; now repeat split]. }
  unfold mbind, M_bind, Date_now, await, db_update. cbn [clock db trace].
  fold (refresh_patch connection).
  destruct (expiresAt - clock w <? bufferTime).
  2:{ exists []. split; [now rewrite List.app_nil_r | left; now repeat split]. }
  destruct (refreshAccessToken env _ _) as [nt|e] eqn:Href; cbn [clock db trace fst snd].
  - change (Patch.mk _ _ _) with (refresh_patch connection nt (clock w + latency env)).
    eexists. split.
    2:{ right; right. exists nt. split; [reflexivity|]. split; [reflexivity|].
        destruct (updateConnection env _ _ _); cbn [fst snd db]; now split. }
    destruct (updateConnection env _ _ _); cbn [snd trace];
      rewrite <- List.app_assoc; reflexivity.
  - exists [asked]. split; [reflexivity|]. right; left. exists e. now repeat split.
Qed.

(** ** The connections page *)

Lemma list_step_keeps_empty (evs : list UI.ListEvent) (st : UI.ListState) :
  UI.connectedPlatforms st = ∅ ->
  UI.connectedPlatforms (fold_left UI.list_step evs st) = ∅.
Proof.
  revert st. induction evs as [|ev evs IH]; intros st Hst; [exact Hst|].
  cbn [fold_left]. apply IH.
  destruct ev; cbn; [exact Hst | | exact Hst].
  rewrite Hst. apply empty_difference_L.
Qed.

(** X19. Nothing on the connections page ever adds a platform to the
    connected set: it starts empty, Connect only navigates, Refresh does
    nothing and Disconnect only removes.  So after any clicks the summary has
    no badge and shows the empty message, and every card, whatever its own
    state, is rendered without the Connected badge and with the Connect
    button, never with Refresh and Disconnect. *)
Theorem connections_list_never_connected (evs : list UI.ListEvent) :
  let st := fold_left UI.list_step evs UI.initial in
  UI.connectedPlatforms st = ∅
  /\ UI.render_summary st
     = {| UI.badge := None;
          UI.message :=
            [UI.Text "No accounts connected yet. Connect your first account to get started."] |}
  /\ forall platform cardState,
       UI.connectedBadge (UI.render_card platform (UI.card_isConnected st platform) cardState)
       = false
       /\ UI.cardBody (UI.render_card platform (UI.card_isConnected st platform) cardState)
          = UI.NotConnectedView (UI.isConnecting cardState)
              (if UI.isConnecting cardState then "Connecting..."
               else "Connect " +:+ UI.name platform).
Proof.
  intros st.
  assert (Hempty : UI.connectedPlatforms st = ∅) by (now apply list_step_keeps_empty).
  split; [exact Hempty|]. split.
  - unfold UI.render_summary. rewrite Hempty, size_empty. reflexivity.
  - intros platform cardState. unfold UI.card_isConnected. rewrite Hempty.
    rewrite bool_decide_eq_false_2 by apply not_elem_of_empty. split; reflexivity.
Qed.

Lemma card_runs (platform : UI.SocialPlatform) (evs : list UI.CardEvent)
    (st0 : UI.CardState * list UI.Toast) :
  let st := fold_left (UI.card_step platform) evs st0 in
  (UI.isRefreshing (fst st0) = false -> UI.isRefreshing (fst st) = false)
  /\ UI.isConnecting (fst st)
     = match UI.last_connect evs with
       | Some (Ok _) => true
       | Some (Throw _) => false
       | None => UI.isConnecting (fst st0)
       end
  /\ length (snd st) = (length (snd st0) + length (List.filter UI.raises_toast evs))%nat.
Proof.
  revert st0. induction evs as [|ev evs IH]; intros st0; cbn [fold_left UI.last_connect].
  - cbn. split; [intros H0; exact H0 | split; [reflexivity | lia]].
  - destruct (IH (UI.card_step platform st0 ev)) as (Hr & Hc & Ht). cbv zeta.
    split; [|split].
    + intros H0. apply Hr. destruct ev as [[]|[]|[]]; cbn; assumption || reflexivity.
    + rewrite Hc. destruct (UI.last_connect evs) as [[]|]; try reflexivity.
      destruct ev as [[]|[]|[]]; reflexivity.
    + rewrite Ht. destruct ev as [[]|[]|[]]; cbn; rewrite ?length_app; cbn; lia.
Qed.

(** X20. A connection card after any completed handler runs: the Refresh
    button is enabled again (isRefreshing is false) whether the refreshes
    succeeded or failed; the Connect button stays disabled (isConnecting is
    true) exactly when the last connect did not throw; and every run except a
    connect that did not throw has raised one toast. *)
Theorem card_after_any_runs (platform : UI.SocialPlatform) (evs : list UI.CardEvent) :
  let st := fold_left (UI.card_step platform) evs (UI.card_initial, []) in
  UI.isRefreshing (fst st) = false
  /\ UI.isConnecting (fst st)
     = match UI.last_connect evs with
       | Some (Ok _) => true
       | _ => false
       end
  /\ length (snd st) = length (List.filter UI.raises_toast evs).
Proof.
  destruct (card_runs platform evs (UI.card_initial, [])) as (Hr & Hc & Ht).
  cbv zeta. split; [now apply Hr|]. split.
  - rewrite Hc. destruct (UI.last_connect evs) as [[]|]; reflexivity.
  - exact Ht.
Qed.

(** X21. A callback without an error parameter that lacks the code or the
    state, absent or empty, takes the missing_parameters branch before the
    state cookie is even read: nothing is requested and nothing is written,
    also when the cookie and the state agree.  The location is a path, so
    the handler throws "URL is malformed" there. *)
Theorem callback_missing_parameters {C : Cipher} {P : URLParser} (ENCRYPTION_KEY : string)
    (env : Env) (rnd : Entropy) (platform : string) (request : CallbackRequest) (w : World) :
  truthy_str (q_error request) = false ->
  truthy_str (q_code request) = false \/ truthy_str (q_state request) = false ->
  GET_callback ENCRYPTION_KEY env rnd platform request w
  = (NextResponse_redirect location_missing_parameters, w)
  /\ GET_callback ENCRYPTION_KEY env rnd platform request w
     = (Throw (malformed_URL location_missing_parameters), w).
Proof.
  intros Herr Hmiss.
  assert (Hrun : GET_callback ENCRYPTION_KEY env rnd platform request w
                 = (NextResponse_redirect location_missing_parameters, w)).
  { unfold GET_callback. rewrite Herr.
    destruct Hmiss as [-> | ->]; [reflexivity|]. now rewrite orb_true_r. }
  split; [exact Hrun | now rewrite Hrun].
Qed.

Lemma callback_missing_parameters_witness :
  GET_callback (C := toy_cipher) (P := CallbackSample.any_url) Sample.KEY
               CallbackSample.succeeding (Sample.rnd "id-1" x0a x0b) "facebook"
               {| q_code := Some EmptyString; q_state := Some "xyz"; q_error := None;
                  cookies := {[ state_cookie_name "facebook" := "xyz" ]} |}
               Sample.world0
  = (Throw (malformed_URL location_missing_parameters), Sample.world0).
Proof.
  apply (callback_missing_parameters (C := toy_cipher) (P := CallbackSample.any_url) Sample.KEY
           CallbackSample.succeeding (Sample.rnd "id-1" x0a x0b) "facebook"
           {| q_code := Some EmptyString; q_state := Some "xyz"; q_error := None;
              cookies := {[ state_cookie_name "facebook" := "xyz" ]} |}
           Sample.world0).
  - reflexivity.
  - left. reflexivity.
Defined.
